(** * Fire TV integration: command translation, pairing flow and health check

    A shallow embedding of [intg_firetv/device.py], [intg_firetv/setup_flow.py]
    and the command paths of [intg_firetv/remote.py], with the properties of
    the specification stated over it.

    Conventions.
    - A Python [str] is modelled as the [string] of the bytes of its UTF-8
      encoding.  Comparison, concatenation, [startswith], [replace] and
      [split] then work byte by byte as they do character by character; the
      white-space and case functions read the encoded characters.
    - [async] methods are run to completion: a method is a function from the
      object's state and the history of events to an outcome, the new state
      and the events it emitted.  What an awaited call answers or raises is
      given by the environment of the run.
    - An exception is an instance of [Exception] or of a class outside it
      (a cancellation); [except Exception] catches the former only.  Log
      calls are not modelled. *)

From Stdlib Require Import ZArith QArith String Ascii List Bool DecimalString.
From stdpp Require Import base option gmap strings.
Import ListNotations.

Local Open Scope string_scope.
Local Open Scope list_scope.
Local Open Scope Z_scope.

(** ** Python string primitives used by the sources *)

Module Py.

Definition is_upper (c : ascii) : bool :=
  let n := N_of_ascii c in (65 <=? n)%N && (n <=? 90)%N.

Definition is_lower (c : ascii) : bool :=
  let n := N_of_ascii c in (97 <=? n)%N && (n <=? 122)%N.

Definition is_digit (c : ascii) : bool :=
  let n := N_of_ascii c in (48 <=? n)%N && (n <=? 57)%N.

Definition byte (c : ascii) : Z := Z.of_N (N_of_ascii c).

(** The character that the UTF-8 text [s] starts with: its code point and
    the number of its bytes. *)
Definition code_point (s : string) : option (Z * nat) :=
  match s with
  | EmptyString => None
  | String c s1 =>
      if byte c <? 128 then Some (byte c, 1%nat)
      else if byte c <? 192 then None
      else
        match s1 with
        | EmptyString => None
        | String d s2 =>
            if byte c <? 224
            then Some ((byte c - 192) * 64 + (byte d - 128), 2%nat)
            else
              match s2 with
              | EmptyString => None
              | String e s3 =>
                  if byte c <? 240
                  then Some ((byte c - 224) * 4096 + (byte d - 128) * 64
                             + (byte e - 128), 3%nat)
                  else
                    match s3 with
                    | EmptyString => None
                    | String f _ =>
                        Some ((byte c - 240) * 262144 + (byte d - 128) * 4096
                              + (byte e - 128) * 64 + (byte f - 128), 4%nat)
                    end
              end
        end
  end.

(** [str.isspace] on one character: TAB, LF, VT, FF, CR, FS, GS, RS, US and
    the space; U+0085, U+00A0, U+1680, U+2000 to U+200A, U+2028, U+2029,
    U+202F, U+205F and U+3000. *)
Definition isspace (cp : Z) : bool :=
  ((9 <=? cp) && (cp <=? 13)) || ((28 <=? cp) && (cp <=? 32)) ||
  (cp =? 133) || (cp =? 160) || (cp =? 5760) ||
  ((8192 <=? cp) && (cp <=? 8202)) || (cp =? 8232) || (cp =? 8233) ||
  (cp =? 8239) || (cp =? 8287) || (cp =? 12288).

(** The number of bytes of the white-space character that [s] starts with;
    0 when [s] starts with none. *)
Definition space_width (s : string) : nat :=
  match code_point s with
  | Some (cp, width) => if isspace cp then width else O
  | None => O
  end.

Definition lower_char (c : ascii) : ascii :=
  if is_upper c then ascii_of_N (N_of_ascii c + 32) else c.

(** [s.lower()] as far as ASCII text can tell.  Two characters outside
    ASCII have an ASCII letter in their lower case: U+0130 (bytes 196 176)
    gives [i] followed by U+0307 (bytes 204 135), and U+212A KELVIN SIGN
    (bytes 226 132 170) gives [k].  The other characters outside ASCII have
    none and are left as they are: the sources compare the result with
    ASCII keys only. *)
Fixpoint lower (s : string) : string :=
  match s with
  | EmptyString => EmptyString
  | String c s1 =>
      if byte c =? 196 then
        match s1 with
        | String d s2 =>
            if byte d =? 176
            then String "i" (String "204" (String "135" (lower s2)))
            else String c (lower s1)
        | EmptyString => String c EmptyString
        end
      else if byte c =? 226 then
        match s1 with
        | String d (String e s3) =>
            if (byte d =? 132) && (byte e =? 170)
            then String "k" (lower s3)
            else String c (lower s1)
        | _ => String c (lower s1)
        end
      else String (lower_char c) (lower s1)
  end.

(** The UTF-8 encoding of a character. *)
Definition chr (n : Z) : ascii := ascii_of_N (Z.to_N n).

Definition utf8 (cp : Z) : string :=
  if cp <? 128 then String (chr cp) EmptyString
  else if cp <? 2048 then
    String (chr (192 + cp / 64)) (String (chr (128 + cp mod 64)) EmptyString)
  else if cp <? 65536 then
    String (chr (224 + cp / 4096))
      (String (chr (128 + (cp / 64) mod 64))
         (String (chr (128 + cp mod 64)) EmptyString))
  else
    String (chr (240 + cp / 262144))
      (String (chr (128 + (cp / 4096) mod 64))
         (String (chr (128 + (cp / 64) mod 64))
            (String (chr (128 + cp mod 64)) EmptyString))).

(** The upper case of the characters, from the character database of
    Unicode 14.0 (CPython 3.11).  An entry [(first, last, step, delta)]
    gives the characters [first], [first + step], ..., [last] the upper case
    [delta] code points further. *)
Definition upper_ranges : list (Z * Z * Z * Z) :=
  [(97, 122, 1, (-32)); (181, 181, 1, 743); (224, 246, 1, (-32)); (248,
   254, 1, (-32)); (255, 255, 1, 121); (257, 303, 2, (-1)); (305, 305, 1,
   (-232)); (307, 311, 2, (-1)); (314, 328, 2, (-1)); (331, 375, 2, (-1));
   (378, 382, 2, (-1)); (383, 383, 1, (-300)); (384, 384, 1, 195); (387,
   389, 2, (-1)); (392, 392, 1, (-1)); (396, 396, 1, (-1)); (402, 402, 1,
   (-1)); (405, 405, 1, 97); (409, 409, 1, (-1)); (410, 410, 1, 163);
   (414, 414, 1, 130); (417, 421, 2, (-1)); (424, 424, 1, (-1)); (429,
   429, 1, (-1)); (432, 432, 1, (-1)); (436, 438, 2, (-1)); (441, 441, 1,
   (-1)); (445, 445, 1, (-1)); (447, 447, 1, 56); (453, 453, 1, (-1));
   (454, 454, 1, (-2)); (456, 456, 1, (-1)); (457, 457, 1, (-2)); (459,
   459, 1, (-1)); (460, 460, 1, (-2)); (462, 476, 2, (-1)); (477, 477, 1,
   (-79)); (479, 495, 2, (-1)); (498, 498, 1, (-1)); (499, 499, 1, (-2));
   (501, 501, 1, (-1)); (505, 543, 2, (-1)); (547, 563, 2, (-1)); (572,
   572, 1, (-1)); (575, 576, 1, 10815); (578, 578, 1, (-1)); (583, 591, 2,
   (-1)); (592, 592, 1, 10783); (593, 593, 1, 10780); (594, 594, 1,
   10782); (595, 595, 1, (-210)); (596, 596, 1, (-206)); (598, 599, 1,
   (-205)); (601, 601, 1, (-202)); (603, 603, 1, (-203)); (604, 604, 1,
   42319); (608, 608, 1, (-205)); (609, 609, 1, 42315); (611, 611, 1,
   (-207)); (613, 613, 1, 42280); (614, 614, 1, 42308); (616, 616, 1,
   (-209)); (617, 617, 1, (-211)); (618, 618, 1, 42308); (619, 619, 1,
   10743); (620, 620, 1, 42305); (623, 623, 1, (-211)); (625, 625, 1,
   10749); (626, 626, 1, (-213)); (629, 629, 1, (-214)); (637, 637, 1,
   10727); (640, 640, 1, (-218)); (642, 642, 1, 42307); (643, 643, 1,
   (-218)); (647, 647, 1, 42282); (648, 648, 1, (-218)); (649, 649, 1,
   (-69)); (650, 651, 1, (-217)); (652, 652, 1, (-71)); (658, 658, 1,
   (-219)); (669, 669, 1, 42261); (670, 670, 1, 42258); (837, 837, 1, 84);
   (881, 883, 2, (-1)); (887, 887, 1, (-1)); (891, 893, 1, 130); (940,
   940, 1, (-38)); (941, 943, 1, (-37)); (945, 961, 1, (-32)); (962, 962,
   1, (-31)); (963, 971, 1, (-32)); (972, 972, 1, (-64)); (973, 974, 1,
   (-63)); (976, 976, 1, (-62)); (977, 977, 1, (-57)); (981, 981, 1,
   (-47)); (982, 982, 1, (-54)); (983, 983, 1, (-8)); (985, 1007, 2,
   (-1)); (1008, 1008, 1, (-86)); (1009, 1009, 1, (-80)); (1010, 1010, 1,
   7); (1011, 1011, 1, (-116)); (1013, 1013, 1, (-96)); (1016, 1016, 1,
   (-1)); (1019, 1019, 1, (-1)); (1072, 1103, 1, (-32)); (1104, 1119, 1,
   (-80)); (1121, 1153, 2, (-1)); (1163, 1215, 2, (-1)); (1218, 1230, 2,
   (-1)); (1231, 1231, 1, (-15)); (1233, 1327, 2, (-1)); (1377, 1414, 1,
   (-48)); (4304, 4346, 1, 3008); (4349, 4351, 1, 3008); (5112, 5117, 1,
   (-8)); (7296, 7296, 1, (-6254)); (7297, 7297, 1, (-6253)); (7298, 7298,
   1, (-6244)); (7299, 7300, 1, (-6242)); (7301, 7301, 1, (-6243)); (7302,
   7302, 1, (-6236)); (7303, 7303, 1, (-6181)); (7304, 7304, 1, 35266);
   (7545, 7545, 1, 35332); (7549, 7549, 1, 3814); (7566, 7566, 1, 35384);
   (7681, 7829, 2, (-1)); (7835, 7835, 1, (-59)); (7841, 7935, 2, (-1));
   (7936, 7943, 1, 8); (7952, 7957, 1, 8); (7968, 7975, 1, 8); (7984,
   7991, 1, 8); (8000, 8005, 1, 8); (8017, 8023, 2, 8); (8032, 8039, 1,
   8); (8048, 8049, 1, 74); (8050, 8053, 1, 86); (8054, 8055, 1, 100);
   (8056, 8057, 1, 128); (8058, 8059, 1, 112); (8060, 8061, 1, 126);
   (8112, 8113, 1, 8); (8126, 8126, 1, (-7205)); (8144, 8145, 1, 8);
   (8160, 8161, 1, 8); (8165, 8165, 1, 7); (8526, 8526, 1, (-28)); (8560,
   8575, 1, (-16)); (8580, 8580, 1, (-1)); (9424, 9449, 1, (-26)); (11312,
   11359, 1, (-48)); (11361, 11361, 1, (-1)); (11365, 11365, 1, (-10795));
   (11366, 11366, 1, (-10792)); (11368, 11372, 2, (-1)); (11379, 11379, 1,
   (-1)); (11382, 11382, 1, (-1)); (11393, 11491, 2, (-1)); (11500, 11502,
   2, (-1)); (11507, 11507, 1, (-1)); (11520, 11557, 1, (-7264)); (11559,
   11559, 1, (-7264)); (11565, 11565, 1, (-7264)); (42561, 42605, 2,
   (-1)); (42625, 42651, 2, (-1)); (42787, 42799, 2, (-1)); (42803, 42863,
   2, (-1)); (42874, 42876, 2, (-1)); (42879, 42887, 2, (-1)); (42892,
   42892, 1, (-1)); (42897, 42899, 2, (-1)); (42900, 42900, 1, 48);
   (42903, 42921, 2, (-1)); (42933, 42947, 2, (-1)); (42952, 42954, 2,
   (-1)); (42961, 42961, 1, (-1)); (42967, 42969, 2, (-1)); (42998, 42998,
   1, (-1)); (43859, 43859, 1, (-928)); (43888, 43967, 1, (-38864));
   (65345, 65370, 1, (-32)); (66600, 66639, 1, (-40)); (66776, 66811, 1,
   (-40)); (66967, 67003, 2, (-39)); (66968, 66976, 2, (-39)); (66980,
   66992, 2, (-39)); (66996, 67000, 2, (-39)); (67004, 67004, 1, (-39));
   (68800, 68850, 1, (-64)); (71872, 71903, 1, (-32)); (93792, 93823, 1,
   (-32)); (125218, 125251, 1, (-34))].

(** The characters whose upper case is more than one character. *)
Definition upper_special : list (Z * list Z) :=
  [(223, [83; 83]); (329, [700; 78]); (496, [74; 780]); (912, [921; 776;
   769]); (944, [933; 776; 769]); (1415, [1333; 1362]); (7830, [72; 817]);
   (7831, [84; 776]); (7832, [87; 778]); (7833, [89; 778]); (7834, [65;
   702]); (8016, [933; 787]); (8018, [933; 787; 768]); (8020, [933; 787;
   769]); (8022, [933; 787; 834]); (8064, [7944; 921]); (8065, [7945;
   921]); (8066, [7946; 921]); (8067, [7947; 921]); (8068, [7948; 921]);
   (8069, [7949; 921]); (8070, [7950; 921]); (8071, [7951; 921]); (8072,
   [7944; 921]); (8073, [7945; 921]); (8074, [7946; 921]); (8075, [7947;
   921]); (8076, [7948; 921]); (8077, [7949; 921]); (8078, [7950; 921]);
   (8079, [7951; 921]); (8080, [7976; 921]); (8081, [7977; 921]); (8082,
   [7978; 921]); (8083, [7979; 921]); (8084, [7980; 921]); (8085, [7981;
   921]); (8086, [7982; 921]); (8087, [7983; 921]); (8088, [7976; 921]);
   (8089, [7977; 921]); (8090, [7978; 921]); (8091, [7979; 921]); (8092,
   [7980; 921]); (8093, [7981; 921]); (8094, [7982; 921]); (8095, [7983;
   921]); (8096, [8040; 921]); (8097, [8041; 921]); (8098, [8042; 921]);
   (8099, [8043; 921]); (8100, [8044; 921]); (8101, [8045; 921]); (8102,
   [8046; 921]); (8103, [8047; 921]); (8104, [8040; 921]); (8105, [8041;
   921]); (8106, [8042; 921]); (8107, [8043; 921]); (8108, [8044; 921]);
   (8109, [8045; 921]); (8110, [8046; 921]); (8111, [8047; 921]); (8114,
   [8122; 921]); (8115, [913; 921]); (8116, [902; 921]); (8118, [913;
   834]); (8119, [913; 834; 921]); (8124, [913; 921]); (8130, [8138;
   921]); (8131, [919; 921]); (8132, [905; 921]); (8134, [919; 834]);
   (8135, [919; 834; 921]); (8140, [919; 921]); (8146, [921; 776; 768]);
   (8147, [921; 776; 769]); (8150, [921; 834]); (8151, [921; 776; 834]);
   (8162, [933; 776; 768]); (8163, [933; 776; 769]); (8164, [929; 787]);
   (8166, [933; 834]); (8167, [933; 776; 834]); (8178, [8186; 921]);
   (8179, [937; 921]); (8180, [911; 921]); (8182, [937; 834]); (8183,
   [937; 834; 921]); (8188, [937; 921]); (64256, [70; 70]); (64257, [70;
   73]); (64258, [70; 76]); (64259, [70; 70; 73]); (64260, [70; 70; 76]);
   (64261, [83; 84]); (64262, [83; 84]); (64275, [1348; 1350]); (64276,
   [1348; 1333]); (64277, [1348; 1339]); (64278, [1358; 1350]); (64279,
   [1348; 1341])].

(** [c.upper()] for one character, as code points. *)
Definition upper_code_points (cp : Z) : list Z :=
  match List.find (fun entry => fst entry =? cp) upper_special with
  | Some entry => snd entry
  | None =>
      match List.find (fun '(first, last, step, _) =>
                         (first <=? cp) && (cp <=? last) &&
                         ((cp - first) mod step =? 0)) upper_ranges with
      | Some (_, _, _, delta) => [cp + delta]
      | None => [cp]
      end
  end.

(** [s.upper()]; [skip] counts the bytes of the last character that are
    still to be passed. *)
Fixpoint upper_from (skip : nat) (s : string) : string :=
  match s with
  | EmptyString => EmptyString
  | String c s' =>
      match skip with
      | S k => upper_from k s'
      | O =>
          match code_point s with
          | Some (cp, width) =>
              List.fold_right (fun u rest => utf8 u +:+ rest)
                              (upper_from (Nat.pred width) s')
                              (upper_code_points cp)
          | None => String c (upper_from O s')
          end
      end
  end.

Definition upper (s : string) : string := upper_from O s.

(** [s.startswith(p)] *)
Fixpoint startswith (s p : string) {struct p} : bool :=
  match p with
  | EmptyString => true
  | String a p' =>
      match s with
      | EmptyString => false
      | String b s' => Ascii.eqb a b && startswith s' p'
      end
  end.

(** The text after the white space that [s] starts with; [width] tells
    the white-space characters and [skip] counts the bytes of one that are
    still to be dropped. *)
Fixpoint skip_spaces (width : string -> nat) (skip : nat) (s : string) : string :=
  match s with
  | EmptyString => EmptyString
  | String _ s' =>
      match skip with
      | S k => skip_spaces width k s'
      | O =>
          match width s with
          | O => s
          | S k => skip_spaces width k s'
          end
      end
  end.

(** Whether [s] is white space throughout. *)
Fixpoint only_spaces (width : string -> nat) (skip : nat) (s : string) : bool :=
  match s with
  | EmptyString => true
  | String _ s' =>
      match skip with
      | S k => only_spaces width k s'
      | O =>
          match width s with
          | O => false
          | S k => only_spaces width k s'
          end
      end
  end.

(** The text before the white space that [s] ends with. *)
Fixpoint drop_trailing_spaces (width : string -> nat) (s : string) : string :=
  match s with
  | EmptyString => EmptyString
  | String c s' =>
      if only_spaces width O s then EmptyString
      else String c (drop_trailing_spaces width s')
  end.

(** [s.lstrip()], [s.rstrip()], [s.strip()] *)
Definition lstrip (s : string) : string := skip_spaces space_width O s.
Definition rstrip (s : string) : string := drop_trailing_spaces space_width s.
Definition strip (s : string) : string := rstrip (lstrip s).

(** [s.replace(old, new)] for a non-empty [old]: the occurrences of [old]
    are found from the left and do not overlap.  [skip] counts the
    characters of a found occurrence that are still to be dropped. *)
Fixpoint replace_from (old new : string) (skip : nat) (s : string) : string :=
  match s with
  | EmptyString => EmptyString
  | String c s' =>
      match skip with
      | S k => replace_from old new k s'
      | O =>
          if startswith s old
          then new +:+ replace_from old new (Nat.pred (String.length old)) s'
          else String c (replace_from old new O s')
      end
  end.

Definition replace (s old new : string) : string := replace_from old new O s.

(** [old in s] *)
Fixpoint contains (s old : string) : bool :=
  startswith s old ||
  match s with
  | EmptyString => false
  | String _ s' => contains s' old
  end.

(** [s.split(sep, 1)] for a one-character [sep]: one element when [sep]
    does not occur, otherwise the text before and the text after its first
    occurrence. *)
Fixpoint split1 (s : string) (sep : ascii) : list string :=
  match s with
  | EmptyString => [EmptyString]
  | String c s' =>
      if Ascii.eqb c sep then [EmptyString; s']
      else match split1 s' sep with
           | h :: t => String c h :: t
           | [] => []
           end
  end.

(** [str(n)] for an [int] *)
Definition str_of_int (n : Z) : string := NilZero.string_of_int (Z.to_int n).

(** The white space that [int] skips around the number: that of
    [str.isspace] without FS, GS, RS and US. *)
Definition int_space_width (s : string) : nat :=
  match code_point s with
  | Some (cp, width) =>
      if isspace cp && negb ((28 <=? cp) && (cp <=? 31)) then width else O
  | None => O
  end.

(** The code points of the digits zero of Unicode 14.0 (the character
    database of CPython 3.11); the digits one to nine of a script follow its
    zero. *)
Definition decimal_zeros : list Z :=
  [48; 1632; 1776; 1984; 2406; 2534; 2662; 2790; 2918; 3046; 3174; 3302;
   3430; 3558; 3664; 3792; 3872; 4160; 4240; 6112; 6160; 6470; 6608;
   6784; 6800; 6992; 7088; 7232; 7248; 42528; 43216; 43264; 43472;
   43504; 43600; 44016; 65296; 66720; 68912; 69734; 69872; 69942; 70096;
   70384; 70736; 70864; 71248; 71360; 71472; 71904; 72016; 72784; 73040;
   73120; 92768; 92864; 93008; 120782; 120792; 120802; 120812; 120822;
   123200; 123632; 125264; 130032].

(** [unicodedata.decimal] of a character, if it is a decimal digit. *)
Definition decimal (cp : Z) : option Z :=
  (fun zero => cp - zero) <$>
  List.find (fun zero => (zero <=? cp) && (cp <=? zero + 9)) decimal_zeros.

(** The decimal digit that [s] starts with: its value and the number of its
    bytes. *)
Definition decimal_at (s : string) : option (Z * nat) :=
  match code_point s with
  | Some (cp, width) => (fun d => (d, width)) <$> decimal cp
  | None => None
  end.

(** The default of [sys.get_int_max_str_digits()]. *)
Definition int_max_str_digits : Z := 4300.

(** The digits of a number: single underscores may separate them, at most
    [int_max_str_digits] of them are read, and only white space may follow.
    [count] is the number of digits read so far, [skip] the number of bytes
    of the last digit that are still to be passed. *)
Fixpoint digits_from (acc : Z) (after_digit : bool) (count : Z) (skip : nat)
         (s : string) : option Z :=
  match s with
  | EmptyString => if after_digit then Some acc else None
  | String c s' =>
      match skip with
      | S k => digits_from acc after_digit count k s'
      | O =>
          match decimal_at s with
          | Some (d, width) =>
              if count <? int_max_str_digits
              then digits_from (10 * acc + d) true (count + 1) (Nat.pred width) s'
              else None
          | None =>
              if Ascii.eqb c "_" then
                if after_digit then digits_from acc false count O s' else None
              else if after_digit && only_spaces int_space_width O s
                   then Some acc else None
          end
      end
  end.

(** [int(s)] for a [str]: white space around the number is skipped, a sign
    may lead, and the digits may be the decimal digits of any script.
    [None] stands for [ValueError]. *)
Definition int_of_str (s : string) : option Z :=
  match skip_spaces int_space_width O s with
  | String "+" s' => digits_from 0 false 0 O s'
  | String "-" s' => Z.opp <$> digits_from 0 false 0 O s'
  | s' => digits_from 0 false 0 O s'
  end.

(** Truth value of a [str] *)
Definition truthy (s : string) : bool :=
  match s with EmptyString => false | _ => true end.

End Py.

(** ** Exceptions, transport events and the effect monad *)

(** The exception classes that occur in the modelled paths.  [OtherError]
    stands for any further [Exception] subclass a transport call may raise
    (connection refused, timeout, ...); [BaseOnly] for a class outside
    [Exception] ([asyncio.CancelledError], [KeyboardInterrupt], ...). *)
Inductive exn_class :=
| ValueError
| IndexError
| TokenInvalidError
| OtherError (class_name : string)
| BaseOnly (class_name : string).

(** An exception instance; [exn_msg] is [str(err)]. *)
Record exn := Exn { exn_cls : exn_class; exn_msg : string }.

(** [isinstance(e, Exception)] *)
Definition is_Exception (e : exn) : bool :=
  match exn_cls e with
  | BaseOnly _ => false
  | _ => true
  end.

(** The methods of [FireTVClient] that [FireTVDevice.send_command] binds in
    its two dispatch tables. *)
Inductive client_method :=
| dpad_up | dpad_down | dpad_left | dpad_right | select | home | back | menu
| epg | volume_up | volume_down | mute | power | sleep
| play_pause | pause | fast_forward | rewind.

(** An awaited call: a request made through a [FireTVClient], or
    [asyncio.sleep]. *)
Inductive call :=
| wake_up
| test_connection (max_retries : Z) (retry_delay : Q)
| request_pin (friendly_name : string)
| verify_pin (pin : string)
| key (m : client_method)
| launch_app (package : string)
| asyncio_sleep (seconds : Z).

(** Modelled from the spec: [intg_firetv/client.py] is not among the
    sources.  Following section 4.1, [verifyPin] answers the token string or
    nothing, every other request answers a boolean.  (What [asyncio.sleep]
    answers is not read.) *)
Definition ret_type (c : call) : Type :=
  match c with
  | verify_pin _ => option string
  | _ => bool
  end.

Inductive event :=
| EvCreate (host : string) (port : Z)   (* FireTVClient(host, port) *)
| EvCall (c : call)                     (* await client.<method>(...) *)
| EvClose                               (* await client.close() *)
| EvSleep (seconds : Z).                (* await asyncio.sleep(seconds) *)

(** The environment of a run: what an awaited call answers, or the exception
    raised in it (by the client, or into the waiting task), given everything
    that happened before it. *)
Definition Transport : Type :=
  forall c : call, list event -> exn + ret_type c.

Record Outcome (St A : Type) := MkOutcome {
  result : exn + A;          (* raised exception or returned value *)
  final : St;                (* the object's attributes afterwards *)
  emitted : list event       (* the events of this run, oldest first *)
}.
Arguments MkOutcome {St A} _ _ _.
Arguments result {St A} _.
Arguments final {St A} _.
Arguments emitted {St A} _.

Definition M (St A : Type) : Type :=
  Transport -> St -> list event -> Outcome St A.

Section Monad.
Context {St : Type}.

Definition ret {A} (a : A) : M St A :=
  fun _ s _ => MkOutcome (inr a) s [].

Definition raise {A} (e : exn) : M St A :=
  fun _ s _ => MkOutcome (inl e) s [].

(** The events [ev] of an earlier part of a run, put before those of [o]. *)
Definition prepend {A} (ev : list event) (o : Outcome St A) : Outcome St A :=
  MkOutcome (result o) (final o) (ev ++ emitted o).

(** What follows a finished part [o] of a run: an exception ends the run,
    a value is handed to the rest [k] of the method. *)
Definition and_then {A B} (o : Outcome St A) (k : A -> M St B)
           (T : Transport) (h : list event) : Outcome St B :=
  match o with
  | MkOutcome (inl e) s ev => MkOutcome (inl e) s ev
  | MkOutcome (inr a) s ev => prepend ev (k a T s (h ++ ev))
  end.

Definition bind {A B} (m : M St A) (k : A -> M St B) : M St B :=
  fun T s h => and_then (m T s h) k T h.

(** What follows a finished [try] block [o]: an instance of [Exception] is
    handed to the [except Exception as err] clause, any other exception goes
    on, a value is the result. *)
Definition on_error {A} (o : Outcome St A) (handler : exn -> M St A)
           (T : Transport) (h : list event) : Outcome St A :=
  match o with
  | MkOutcome (inl e) s ev =>
      if is_Exception e then prepend ev (handler e T s (h ++ ev))
      else MkOutcome (inl e) s ev
  | MkOutcome (inr a) s ev => MkOutcome (inr a) s ev
  end.

(** [try: body / except Exception as err: handler err] *)
Definition try_except {A} (body : M St A) (handler : exn -> M St A) : M St A :=
  fun T s h => on_error (body T s h) handler T h.

Definition get : M St St := fun _ s _ => MkOutcome (inr s) s [].
Definition put (s : St) : M St unit := fun _ _ _ => MkOutcome (inr tt) s [].

Definition emit (e : event) : M St unit :=
  fun _ s _ => MkOutcome (inr tt) s [e].

(** [await client.<c>] *)
Definition request (c : call) : M St (ret_type c) :=
  fun T s h => MkOutcome (T c h) s [EvCall c].

(** [await asyncio.sleep(seconds)] *)
Definition await_sleep (seconds : Z) : M St unit :=
  fun T s h =>
    MkOutcome (match T (asyncio_sleep seconds) h with
               | inl e => inl e
               | inr _ => inr tt
               end) s [EvSleep seconds].

(** [await client.close()]; section 4.1: it never raises, and the model
    takes the call as one that completes. *)
Definition close : M St unit := emit EvClose.

(** [l[i]] *)
Definition subscript {A} (l : list A) (i : nat) : M St A :=
  match nth_error l i with
  | Some a => ret a
  | None => raise (Exn IndexError "list index out of range")
  end.
End Monad.

Arguments prepend {St A} ev !o /.
Arguments and_then {St A B} !o k T h /.
Arguments on_error {St A} !o handler T h /.
Arguments is_Exception !e /.

Notation "x <- m ;; k" := (bind m (fun x => k))
  (at level 100, m at next level, right associativity).
Notation "m ;; k" := (bind m (fun _ => k))
  (at level 100, right associativity).

(** ** [intg_firetv/config.py] *)

Record FireTVConfig := {
  identifier : string;
  name : string;
  host : string;
  port : Z;
  token : string
}.

(** ** [intg_firetv/device.py] *)

(** [aiohttp]'s session object as far as the device reads it. *)
Record ClientSession := { closed : bool }.

Record FireTVClient := {
  client_host : string;
  client_port : Z;
  client_token : string;
  session : option ClientSession
}.

Record FireTVDevice := {
  _device_config : FireTVConfig;
  _client : option FireTVClient
}.

(** An entry of [FIRE_TV_TOP_APPS]: the ['name'] and ['package'] keys. *)
Record AppData := { app_name : string; app_package : string }.

(** [d.get(k)] on a dict written as its items in insertion order. *)
Fixpoint dict_get {V} (d : list (string * V)) (k : string) : option V :=
  match d with
  | [] => None
  | (k', v) :: d' => if String.eqb k' k then Some v else dict_get d' k
  end.

Definition nav_commands : list (string * client_method) :=
  [ ("dpad_up", dpad_up); ("dpad_down", dpad_down); ("dpad_left", dpad_left);
    ("dpad_right", dpad_right); ("select", select); ("home", home);
    ("back", back); ("menu", menu); ("epg", epg); ("volume_up", volume_up);
    ("volume_down", volume_down); ("mute", mute); ("power", power);
    ("sleep", sleep) ].

Definition media_commands : list (string * client_method) :=
  [ ("play_pause", play_pause); ("pause", pause);
    ("fast_forward", fast_forward); ("rewind", rewind) ].

(** [app_data['name'].upper().replace(' ', '_').replace('+', 'PLUS')] *)
Definition normalized_name (app_data : AppData) : string :=
  Py.replace (Py.replace (Py.upper (app_name app_data)) " " "_") "+" "PLUS".

Section Device.
(** [intg_firetv/apps.py] is not among the sources: its registry and its
    validator are parameters of the device model. *)
Variable FIRE_TV_TOP_APPS : list (string * AppData).
Variable validate_package_name : string -> bool.

Definition check_client_connected : M FireTVDevice bool :=
  self <- get ;;
  match _client self with
  | None => ret false
  | Some client =>
      match session client with
      | None => ret false
      | Some sess => if closed sess then ret false else ret true
      end
  end.

(** The [for app_id, app_data in FIRE_TV_TOP_APPS.items()] loop of
    [send_command]; leaving the loop without a match returns [False]. *)
Fixpoint launch_loop (apps : list (string * AppData)) (command : string)
  : M FireTVDevice bool :=
  match apps with
  | [] => ret false
  | (app_id, app_data) :: apps' =>
      if String.eqb (normalized_name app_data)
                    (Py.replace command "LAUNCH_" "")
      then request (launch_app (app_package app_data))
      else launch_loop apps' command
  end.

Definition send_command (command : string) : M FireTVDevice bool :=
  self <- get ;;
  match _client self with
  | None => ret false
  | Some _ =>
      try_except
        (let command_lower := Py.lower command in
         match dict_get nav_commands command_lower with
         | Some method => request (key method)
         | None =>
         match dict_get media_commands command_lower with
         | Some method => request (key method)
         | None =>
             if Py.startswith command "LAUNCH_" then
               launch_loop FIRE_TV_TOP_APPS command
             else if Py.startswith command "custom_app:" then
               after <- subscript (Py.split1 command ":") 1 ;;
               let package := Py.strip after in
               if negb (validate_package_name package) then ret false
               else request (launch_app package)
             else ret false
         end
         end)
        (fun err => ret false)
  end.
End Device.

(** ** [intg_firetv/remote.py]: the command paths *)

Inductive StatusCodes := OK | SERVER_ERROR | NOT_IMPLEMENTED | UNAUTHORIZED.
Inductive States := ON | OFF.

Record FireTVRemote := {
  _device : FireTVDevice;
  attributes_STATE : States      (* self.attributes[Attributes.STATE] *)
}.

(** [LAUNCH_<cmd_name>] as [_create_top_apps_page] builds it from an entry of
    the registry. *)
Definition cmd_name (app_data : AppData) : string :=
  Py.replace (Py.replace (Py.upper (app_name app_data)) " " "_") "+" "PLUS".

Definition launch_command (app_data : AppData) : string :=
  "LAUNCH_" +:+ cmd_name app_data.

(** [(app_id, label, col, row)] *)
Definition top_apps : list (string * string * Z * Z) :=
  [ ("netflix", "Netflix", 0, 0); ("prime_video", "Prime", 1, 0);
    ("disney_plus", "Disney+", 2, 0); ("plex", "Plex", 0, 1);
    ("kodi", "Kodi", 1, 1) ].

(** The commands of the items that the [for] loop of [_create_top_apps_page]
    appends: one per listed id that the registry knows. *)
Definition top_apps_page_commands (FIRE_TV_TOP_APPS : list (string * AppData))
  : list string :=
  omap (fun '(app_id, _, _, _) =>
          launch_command <$> dict_get FIRE_TV_TOP_APPS app_id) top_apps.

(** Running a method of the owned device from the remote entity. *)
Definition on_device {A} (m : M FireTVDevice A) : M FireTVRemote A :=
  fun T self h =>
    let o := m T (_device self) h in
    MkOutcome (result o)
              {| _device := final o; attributes_STATE := attributes_STATE self |}
              (emitted o).

Definition set_state (st : States) : M FireTVRemote unit :=
  self <- get ;;
  put {| _device := _device self; attributes_STATE := st |}.

(** [params and 'command' in params], then [params['command']] *)
Definition command_param (params : option (gmap string string)) : option string :=
  match params with
  | Some d => d !! "command"
  | None => None
  end.

Section Remote.
Variable FIRE_TV_TOP_APPS : list (string * AppData).
Variable validate_package_name : string -> bool.

Definition _handle_command (cmd_id : string)
           (params : option (gmap string string)) : M FireTVRemote StatusCodes :=
  try_except
    (match (if String.eqb cmd_id "send_cmd" then command_param params else None) with
     | Some command =>
         success <- on_device
                      (send_command FIRE_TV_TOP_APPS validate_package_name command) ;;
         ret (if success : bool then OK else SERVER_ERROR)
     | None =>
         if String.eqb cmd_id "on" then set_state ON ;; ret OK
         else if String.eqb cmd_id "off" then set_state OFF ;; ret OK
         else if String.eqb cmd_id "toggle" then
           self <- get ;;
           let new_state :=
             match attributes_STATE self with ON => OFF | OFF => ON end in
           set_state new_state ;; ret OK
         else ret NOT_IMPLEMENTED
     end)
    (fun e =>
       match exn_cls e with
       | TokenInvalidError => ret UNAUTHORIZED     (* except TokenInvalidError *)
       | _ => ret SERVER_ERROR                     (* except Exception *)
       end).
End Remote.

(** ** [intg_firetv/setup_flow.py] *)

Record FireTVSetupFlow := {
  _temp_host : option string;
  _temp_port : Z
}.

(** The form a [RequestUserInput] carries: title and fields, English text. *)
Record InputField := {
  field_id : string;
  field_label : string;
  field_value : string
}.

Record RequestUserInput := {
  title : string;
  settings : list InputField
}.

Definition LF : string := String "010" EmptyString.

Definition pin_form : RequestUserInput :=
  {| title := "Enter PIN from Fire TV";
     settings := [ {| field_id := "pin";
                      field_label := "4-Digit PIN (shown on TV screen)";
                      field_value := "" |} ] |}.

Definition cannot_reach_message (host : string) (port : Z) : string :=
  "Cannot reach Fire TV at " +:+ host +:+ ":" +:+ Py.str_of_int port +:+ LF +:+ LF +:+
  "Troubleshooting:" +:+ LF +:+
  "1. Ensure Fire TV is powered on" +:+ LF +:+
  "2. Verify IP address is correct" +:+ LF +:+
  "3. Try different port (8080, 8009, 8443)" +:+ LF +:+
  "4. Check network/firewall allows connection".

Definition pin_request_failed_message : string :=
  "Failed to request PIN display on Fire TV." +:+ LF +:+
  "Please ensure Fire TV is powered on and accessible.".

Definition pin_verification_failed_message : string :=
  "PIN verification failed." +:+ LF +:+
  "Please check the PIN on your TV screen and try again.".

(** Truth value of a [str | None] *)
Definition truthy_opt (o : option string) : bool :=
  match o with
  | Some s => Py.truthy s
  | None => false
  end.

(** [k in d] *)
Definition dict_has (d : gmap string string) (k : string) : bool :=
  match d !! k with
  | Some _ => true
  | None => false
  end.

(** [self._temp_host = h; self._temp_port = p] *)
Definition set_temp (h : option string) (p : Z) : M FireTVSetupFlow unit :=
  put {| _temp_host := h; _temp_port := p |}.

(** [input_values.get("host", "").strip()] *)
Definition input_host (input_values : gmap string string) : string :=
  Py.strip (default "" (input_values !! "host")).

(** [int(input_values.get("port", 8080))]; [None] stands for [ValueError]. *)
Definition input_port (input_values : gmap string string) : option Z :=
  match input_values !! "port" with
  | Some v => Py.int_of_str v
  | None => Some 8080
  end.

Definition _initial_connection_step (input_values : gmap string string)
  : M FireTVSetupFlow RequestUserInput :=
  let host := input_host input_values in
  if negb (Py.truthy host) then raise (Exn ValueError "IP address is required")
  else
    match input_port input_values with
    | None => raise (Exn ValueError "Port must be a number")
    | Some port =>
        set_temp (Some host) port ;;
        emit (EvCreate host port) ;;
        try_except
          (request wake_up ;;
           await_sleep 3 ;;
           connected <- request (test_connection 3 3) ;;
           (if negb connected
            then close ;; raise (Exn ValueError (cannot_reach_message host port))
            else ret tt) ;;
           pin_requested <- request (request_pin "UC Remote") ;;
           close ;;
           (if negb pin_requested
            then raise (Exn ValueError pin_request_failed_message)
            else ret tt) ;;
           ret pin_form)
          (fun err =>
             close ;;
             set_temp None 8080 ;;
             raise (Exn ValueError ("Setup failed: " +:+ exn_msg err)))
    end.

Definition _verify_pin_step (input_values : gmap string string)
  : M FireTVSetupFlow FireTVConfig :=
  let pin := Py.strip (default "" (input_values !! "pin")) in
  if negb (Py.truthy pin) then raise (Exn ValueError "PIN is required")
  else
    self <- get ;;
    if negb (truthy_opt (_temp_host self))
    then raise (Exn ValueError "Setup flow error: no host stored from previous step")
    else
      let host := default "" (_temp_host self) in
      let port := _temp_port self in
      let name :=
        Py.strip (default ("Fire TV (" +:+ host +:+ ")") (input_values !! "name")) in
      emit (EvCreate host port) ;;
      try_except
        (token <- request (verify_pin pin) ;;
         close ;;
         if negb (truthy_opt token)
         then raise (Exn ValueError pin_verification_failed_message)
         else
           set_temp None 8080 ;;
           ret {| identifier :=
                    "firetv_" +:+ Py.replace host "." "_" +:+ "_" +:+ Py.str_of_int port;
                  name := name;
                  host := host;
                  port := port;
                  token := default "" token |})
        (fun err =>
           close ;;
           set_temp None 8080 ;;
           raise (Exn ValueError ("PIN verification failed: " +:+ exn_msg err))).

Definition query_device (input_values : gmap string string)
  : M FireTVSetupFlow (FireTVConfig + RequestUserInput) :=
  self <- get ;;
  if dict_has input_values "pin" && truthy_opt (_temp_host self)
  then config <- _verify_pin_step input_values ;; ret (inl config)
  else form <- _initial_connection_step input_values ;; ret (inr form).

(** ** Observations on event traces *)



(** The requests sent to the device among the events [tr]. *)
Fixpoint network_calls (tr : list event) : list call :=
  match tr with
  | [] => []
  | EvCall c :: tr' => c :: network_calls tr'
  | _ :: tr' => network_calls tr'
  end.

(** The entry the loop of [send_command] stops at for the text [wanted]. *)
Fixpoint find_app (apps : list (string * AppData)) (wanted : string)
  : option AppData :=
  match apps with
  | [] => None
  | (_, app_data) :: apps' =>
      if String.eqb (normalized_name app_data) wanted then Some app_data
      else find_app apps' wanted
  end.

(** What [send_command] makes of the answer of a transport call: the value,
    or [False] when the call raised an instance of [Exception]; any other
    exception goes on. *)
Definition caught (r : exn + bool) : exn + bool :=
  match r with
  | inl e => if is_Exception e then inr false else inl e
  | inr b => inr b
  end.



(** ** Instances for running the model *)

(** A letter, a digit or the underscore. *)
Definition is_word_char (c : ascii) : bool :=
  Py.is_upper c || Py.is_lower c || Py.is_digit c || Ascii.eqb c "_".

Fixpoint all_chars (p : ascii -> bool) (s : string) : bool :=
  match s with
  | EmptyString => true
  | String c s' => p c && all_chars p s'
  end.

(** [s.split('.')] *)
Fixpoint split_dots (s : string) : list string :=
  match s with
  | EmptyString => [EmptyString]
  | String c s' =>
      if Ascii.eqb c "." then EmptyString :: split_dots s'
      else match split_dots s' with
           | seg :: segs => String c seg :: segs
           | [] => [String c EmptyString]
           end
  end.

(** Modelled from the spec: [validate_package_name] of the missing
    [intg_firetv/apps.py].  Section 4.3: dot-separated segments of letters,
    digits and underscores, no empty segment, at least two segments. *)
Definition spec_validate_package_name (package : string) : bool :=
  let segments := split_dots package in
  (2 <=? length segments)%nat &&
  forallb (fun seg => Py.truthy seg && all_chars is_word_char seg) segments.

(** Modelled from the spec: [FIRE_TV_TOP_APPS] of the missing
    [intg_firetv/apps.py], a table from application identifiers to display
    names and package identifiers (section 6).  The identifiers are the five
    that [remote.py] lists; the package identifiers are placeholders. *)
Definition sample_apps : list (string * AppData) :=
  [ ("netflix", {| app_name := "Netflix"; app_package := "com.netflix.ninja" |});
    ("prime_video", {| app_name := "Prime Video"; app_package := "com.amazon.avod" |});
    ("disney_plus", {| app_name := "Disney+"; app_package := "com.disney.disneyplus" |});
    ("plex", {| app_name := "Plex"; app_package := "com.plexapp.android" |});
    ("kodi", {| app_name := "Kodi"; app_package := "org.xbmc.kodi" |}) ].

(** A device that accepts every request; it answers [verify_pin] with the
    token ["tok"]. *)
Definition accepting : Transport :=
  fun c _ =>
    match c return exn + ret_type c with
    | verify_pin _ => inr (Some "tok")
    | wake_up => inr true
    | test_connection _ _ => inr true
    | request_pin _ => inr true
    | key _ => inr true
    | launch_app _ => inr true
    | asyncio_sleep _ => inr true
    end.

(** A device that no longer accepts the token: every authenticated request
    raises [TokenInvalidError]. *)
Definition token_rejecting : Transport :=
  fun c _ =>
    match c return exn + ret_type c with
    | verify_pin _ => inr None
    | wake_up => inr true
    | test_connection _ _ => inr true
    | request_pin _ => inr true
    | key _ => inl (Exn TokenInvalidError "token rejected")
    | launch_app _ => inl (Exn TokenInvalidError "token rejected")
    | asyncio_sleep _ => inr true
    end.

(** A device that cannot be reached. *)
Definition unreachable : Transport :=
  fun c _ =>
    match c return exn + ret_type c with
    | verify_pin _ => inr None
    | wake_up => inr false
    | test_connection _ _ => inr false
    | request_pin _ => inr false
    | key _ => inl (Exn (OtherError "ClientConnectorError") "connection refused")
    | launch_app _ => inl (Exn (OtherError "ClientConnectorError") "connection refused")
    | asyncio_sleep _ => inr true
    end.

(** A run whose task is cancelled while it waits for the first request to
    the device: every request raises [asyncio.CancelledError]. *)
Definition cancelled : Transport :=
  fun c _ =>
    match c return exn + ret_type c with
    | verify_pin _ => inl (Exn (BaseOnly "CancelledError") "")
    | wake_up => inl (Exn (BaseOnly "CancelledError") "")
    | test_connection _ _ => inl (Exn (BaseOnly "CancelledError") "")
    | request_pin _ => inl (Exn (BaseOnly "CancelledError") "")
    | key _ => inl (Exn (BaseOnly "CancelledError") "")
    | launch_app _ => inl (Exn (BaseOnly "CancelledError") "")
    | asyncio_sleep _ => inl (Exn (BaseOnly "CancelledError") "")
    end.

(** U+00A0 NO-BREAK SPACE and U+212A KELVIN SIGN *)
Definition NBSP : string := String "194" (String "160" EmptyString).
Definition KELVIN : string := String "226" (String "132" (String "170" EmptyString)).

Definition sample_config : FireTVConfig :=
  {| identifier := "firetv_192_168_1_50_8080"; name := "Fire TV";
     host := "192.168.1.50"; port := 8080; token := "tok" |}.

Definition sample_client : FireTVClient :=
  {| client_host := "192.168.1.50"; client_port := 8080; client_token := "tok";
     session := Some {| closed := false |} |}.

Definition connected_device : FireTVDevice :=
  {| _device_config := sample_config; _client := Some sample_client |}.

Definition fresh_device : FireTVDevice :=
  {| _device_config := sample_config; _client := None |}.

Definition idle_flow : FireTVSetupFlow :=
  {| _temp_host := None; _temp_port := 8080 |}.

Definition awaiting_pin_flow : FireTVSetupFlow :=
  {| _temp_host := Some "192.168.1.50"; _temp_port := 8080 |}.

(** ** [intg_firetv/device.py]: the client's life cycle *)

(** [ucapi_framework.DeviceEvents], the two members the device emits. *)
Inductive DeviceEvents := CONNECTED | DISCONNECTED.

(** The device object and, oldest first, what its [events] emitter was
    given: [self.events.emit(event, identifier)]. *)
Record DeviceRuntime := {
  self_device : FireTVDevice;
  events_emitted : list (DeviceEvents * string)
}.

(** The properties [identifier], [address] and [log_id] *)
Definition device_identifier (self : FireTVDevice) : string :=
  identifier (_device_config self).

Definition address (self : FireTVDevice) : string :=
  host (_device_config self).

Definition log_id (self : FireTVDevice) : string :=
  name (_device_config self) +:+ " (" +:+ address self +:+ ")".

(** [self._client = c] *)
Definition set_client (c : option FireTVClient) : M DeviceRuntime unit :=
  self <- get ;;
  put {| self_device :=
           {| _device_config := _device_config (self_device self); _client := c |};
         events_emitted := events_emitted self |}.

(** [self.events.emit(ev, self.identifier)] *)
Definition events_emit (ev : DeviceEvents) : M DeviceRuntime unit :=
  self <- get ;;
  put {| self_device := self_device self;
         events_emitted :=
           events_emitted self ++ [(ev, device_identifier (self_device self))] |}.

Section Lifecycle.
(** [intg_firetv/client.py] is not among the sources: the [session]
    attribute that a client has right after its construction is a parameter. *)
Variable new_session : option ClientSession.

Definition create_client : M DeviceRuntime FireTVClient :=
  self <- get ;;
  let config := _device_config (self_device self) in
  let client := {| client_host := host config;
                   client_port := port config;
                   client_token := token config;
                   session := new_session |} in
  emit (EvCreate (host config) (port config)) ;;
  set_client (Some client) ;;
  ret client.
End Lifecycle.

Definition connect_client : M DeviceRuntime unit :=
  self <- get ;;
  match _client (self_device self) with
  | None =>
      raise (Exn (OtherError "RuntimeError")
                 "Client not created. Call create_client() first.")
  | Some _ =>
      connected <- request (test_connection 3 2) ;;
      if negb connected
      then raise (Exn (OtherError "ConnectionError")
                      ("Failed to connect to Fire TV at " +:+ address (self_device self)))
      else events_emit CONNECTED
  end.

(** The [finally] clause runs after the [try] statement, whose [except
    Exception] clause has caught whatever [close] raised. *)
Definition disconnect_client : M DeviceRuntime unit :=
  self <- get ;;
  (match _client (self_device self) with
   | Some _ =>
       try_except close (fun err => ret tt) ;;
       set_client None
   | None => ret tt
   end) ;;
  events_emit DISCONNECTED.

(** Running a method of [FireTVDevice] that emits no framework event. *)
Definition on_self_device {A} (m : M FireTVDevice A) : M DeviceRuntime A :=
  fun T self h =>
    let o := m T (self_device self) h in
    MkOutcome (result o)
              {| self_device := final o; events_emitted := events_emitted self |}
              (emitted o).

(** ** [intg_firetv/remote.py]: commands, buttons and pages *)

Definition _build_simple_commands : list string :=
  [ "DPAD_UP"; "DPAD_DOWN"; "DPAD_LEFT"; "DPAD_RIGHT"; "SELECT"; "HOME"; "BACK";
    "MENU"; "EPG"; "VOLUME_UP"; "VOLUME_DOWN"; "MUTE"; "POWER"; "SLEEP";
    "PLAY_PAUSE"; "PAUSE"; "FAST_FORWARD"; "REWIND";
    "LAUNCH_NETFLIX"; "LAUNCH_PRIME_VIDEO"; "LAUNCH_DISNEY_PLUS"; "LAUNCH_PLEX";
    "LAUNCH_KODI" ].

(** The members of [ucapi.ui.Buttons] that the mapping uses. *)
Module ui.
Inductive Buttons :=
| DPAD_UP | DPAD_DOWN | DPAD_LEFT | DPAD_RIGHT | DPAD_MIDDLE | BACK | HOME
| PLAY | VOLUME_UP | VOLUME_DOWN | MUTE | POWER | RED | GREEN | YELLOW | BLUE.
End ui.

(** An entry of the button mapping; a press carries the command of its
    [send_cmd]. *)
Record ButtonMapping := {
  button : ui.Buttons;
  short_press : option string;
  long_press : option string
}.

(** [(button, short_cmd, long_cmd)] *)
Definition button_configs : list (ui.Buttons * string * option string) :=
  [ (ui.DPAD_UP, "DPAD_UP", None); (ui.DPAD_DOWN, "DPAD_DOWN", None);
    (ui.DPAD_LEFT, "DPAD_LEFT", None); (ui.DPAD_RIGHT, "DPAD_RIGHT", None);
    (ui.DPAD_MIDDLE, "SELECT", None); (ui.BACK, "BACK", None);
    (ui.HOME, "HOME", Some "MENU"); (ui.PLAY, "PLAY_PAUSE", None);
    (ui.VOLUME_UP, "VOLUME_UP", None); (ui.VOLUME_DOWN, "VOLUME_DOWN", None);
    (ui.MUTE, "MUTE", None); (ui.POWER, "POWER", None);
    (ui.RED, "LAUNCH_NETFLIX", None); (ui.GREEN, "LAUNCH_PRIME_VIDEO", None);
    (ui.YELLOW, "LAUNCH_DISNEY_PLUS", None); (ui.BLUE, "LAUNCH_PLEX", None) ].

Definition _create_button_mapping : list ButtonMapping :=
  map (fun '(btn, short_cmd, long_cmd) =>
         {| button := btn;
            short_press := if Py.truthy short_cmd then Some short_cmd else None;
            long_press := if truthy_opt long_cmd then long_cmd else None |})
      button_configs.

(** An item of a page: its text, its [location] [(x, y)], its [size]
    [(width, height)] when it gives one, and the command of its [send_cmd]. *)
Record UiItem := {
  item_text : string;
  item_location : Z * Z;
  item_size : option (Z * Z);
  item_command : option string
}.

Record UiPage := {
  page_id : string;
  page_name : string;
  grid : Z * Z;          (* (width, height) *)
  items : list UiItem
}.

Definition text_item (text : string) (x y : Z) (cmd : string) : UiItem :=
  {| item_text := text; item_location := (x, y); item_size := None; item_command := Some cmd |}.

Definition _create_navigation_page : UiPage :=
  {| page_id := "navigation";
     page_name := "Navigation";
     grid := (4, 6);
     items :=
       [ text_item "UP" 1 0 "DPAD_UP"; text_item "LEFT" 0 1 "DPAD_LEFT";
         text_item "OK" 1 1 "SELECT"; text_item "RIGHT" 2 1 "DPAD_RIGHT";
         text_item "DOWN" 1 2 "DPAD_DOWN"; text_item "HOME" 3 0 "HOME";
         text_item "BACK" 3 1 "BACK"; text_item "MENU" 3 2 "MENU";
         text_item "VOL-" 0 3 "VOLUME_DOWN"; text_item "MUTE" 1 3 "MUTE";
         text_item "VOL+" 2 3 "VOLUME_UP"; text_item "REW" 0 4 "REWIND";
         text_item "PLAY" 1 4 "PLAY_PAUSE"; text_item "FWD" 2 4 "FAST_FORWARD";
         text_item "POWER" 0 5 "POWER"; text_item "SLEEP" 1 5 "SLEEP";
         text_item "EPG" 2 5 "EPG" ] |}.

Definition _create_custom_apps_page : UiPage :=
  {| page_id := "custom_apps";
     page_name := "Custom Apps";
     grid := (4, 6);
     items :=
       [ {| item_text := "Launch ANY app using:" +:+ LF +:+ "custom_app:com.package.name";
            item_location := (0, 0); item_size := Some (4, 2); item_command := None |} ] ++
       map (fun '(label, cmd, col, row) =>
              {| item_text := label; item_location := (col, row); item_size := Some (2, 1);
                 item_command := Some cmd |})
           [ ("Example:" +:+ LF +:+ "Hulu", "custom_app:com.hulu.plus", 0, 2);
             ("Example:" +:+ LF +:+ "YouTube", "custom_app:com.amazon.firetv.youtube", 2, 2);
             ("Example:" +:+ LF +:+ "Spotify", "custom_app:com.spotify.tv.android", 0, 3);
             ("Example:" +:+ LF +:+ "VLC", "custom_app:org.videolan.vlc", 2, 3) ] ++
       [ {| item_text := "Find package names in app settings";
            item_location := (0, 5); item_size := Some (4, 1); item_command := None |} ] |}.

Section RemotePages.
Variable FIRE_TV_TOP_APPS : list (string * AppData).

Definition _create_top_apps_page : UiPage :=
  {| page_id := "top_apps";
     page_name := "Top Apps";
     grid := (4, 6);
     items :=
       omap (fun '(app_id, label, col, row) =>
               match dict_get FIRE_TV_TOP_APPS app_id with
               | Some app_data =>
                   Some {| item_text := label; item_location := (col, row); item_size := None;
                           item_command := Some ("LAUNCH_" +:+ cmd_name app_data) |}
               | None => None
               end) top_apps ++
       [ {| item_text := "Custom Apps Page for more";
            item_location := (0, 3); item_size := Some (4, 1); item_command := None |} ] |}.

Definition _create_ui_pages : list UiPage :=
  [ _create_navigation_page; _create_top_apps_page; _create_custom_apps_page ].
End RemotePages.

(** The cells of the grid that an item covers; an item that gives no size
    covers the one cell of its location. *)
Definition item_box (item : UiItem) : Z * Z * Z * Z :=
  let '(x, y) := item_location item in
  let '(w, h) := default (1, 1) (item_size item) in
  (x, y, w, h).

Definition inside_grid (page : UiPage) (item : UiItem) : bool :=
  let '(x, y, w, h) := item_box item in
  let '(gw, gh) := grid page in
  (0 <=? x) && (0 <=? y) && (1 <=? w) && (1 <=? h) && (x + w <=? gw) && (y + h <=? gh).

Definition boxes_overlap (a b : UiItem) : bool :=
  let '(ax, ay, aw, ah) := item_box a in
  let '(bx, by', bw, bh) := item_box b in
  (ax <? bx + bw) && (bx <? ax + aw) && (ay <? by' + bh) && (by' <? ay + ah).

Fixpoint pairwise_apart (l : list UiItem) : bool :=
  match l with
  | [] => true
  | a :: l' => forallb (fun b => negb (boxes_overlap a b)) l' && pairwise_apart l'
  end.

Definition layout_ok (page : UiPage) : bool :=
  forallb (inside_grid page) (items page) && pairwise_apart (items page).

(** The commands that a mapping entry or a page can send. *)
Definition mapping_commands (m : ButtonMapping) : list string :=
  match short_press m with Some c => [c] | None => [] end ++
  match long_press m with Some c => [c] | None => [] end.

Definition page_commands (page : UiPage) : list string :=
  omap item_command (items page).

(** ** [intg_firetv/setup_flow.py]: the manual entry form *)

Definition get_manual_entry_form : RequestUserInput :=
  {| title := "Fire TV Setup";
     settings :=
       [ {| field_id := "name"; field_label := "Device Name"; field_value := "Fire TV" |};
         {| field_id := "host"; field_label := "IP Address"; field_value := "" |};
         {| field_id := "port"; field_label := "Port (default: 8080)";
            field_value := "8080" |} ] |}.

(** The input that a form yields when it is submitted as it stands. *)
Definition form_defaults (form : RequestUserInput) : gmap string string :=
  list_to_map (map (fun f => (field_id f, field_value f)) (settings form)).

(** ** [simulator/firetv_simulator.py] *)

Module Simulator.

(** A decoded JSON value as far as the handlers tell values apart: [null],
    a string, or anything else (number, boolean, array, object). *)
Inductive jvalue := JNull | JString (s : string) | JOther.

(** The module-level [STATE] dict; the tokens are the keys of
    [authenticated_tokens]. *)
Record STATE := {
  pin_request_active : bool;
  current_pin : option string;
  authenticated_tokens : gmap string bool
}.

Definition initial_STATE : STATE :=
  {| pin_request_active := false; current_pin := None;
     authenticated_tokens := ∅ |}.

(** What a handler reads of a request.  [body] is [None] when
    [await request.json()] raises or yields something that is not an object
    (so that [data.get] raises); [x_client_token] is
    [request.headers.get("X-Client-Token")]. *)
Record Request := {
  body : option (gmap string jvalue);
  x_client_token : option string
}.

Inductive Response :=
| web_Response (text : option string) (status : Z)
| json_response (data : list (string * string)) (status : Z).

Definition status_of (r : Response) : Z :=
  match r with
  | web_Response _ s => s
  | json_response _ s => s
  end.

(** [s.zfill(width)] on the digits of a number *)
Fixpoint zeros (n : nat) : string :=
  match n with
  | O => EmptyString
  | S n' => String "0" (zeros n')
  end.

Definition zfill (width : nat) (s : string) : string :=
  zeros (width - String.length s) +:+ s.

(** [f"{n:04d}"] *)
Definition format_04d (n : Z) : string :=
  if n <? 0 then "-" +:+ zfill 3 (Py.str_of_int (- n))
  else zfill 4 (Py.str_of_int n).

Definition handle_root (request : Request) (st : STATE) : Response * STATE :=
  (web_Response (Some "Fire TV Simulator") 200, st).

Definition handle_wake (request : Request) (st : STATE) : Response * STATE :=
  (web_Response None 200, st).

(** [draw] is the value of [secrets.randbelow(10000)]. *)
Definition handle_pin_display (draw : Z) (request : Request) (st : STATE)
  : Response * STATE :=
  match body request with
  | None => (web_Response None 500, st)
  | Some data =>
      let pin := format_04d draw in
      (json_response [("status", "success")] 200,
       {| pin_request_active := true;
          current_pin := Some pin;
          authenticated_tokens := authenticated_tokens st |})
  end.

(** [pin != STATE["current_pin"]], for [pin = data.get("pin")] *)
Definition pin_differs (pin : option jvalue) (current : option string) : bool :=
  match pin, current with
  | None, None => false
  | Some JNull, None => false
  | Some (JString s), Some c => negb (String.eqb s c)
  | _, _ => true
  end.

(** [fresh] is the value of [secrets.token_hex(32)]. *)
Definition handle_pin_verify (fresh : string) (request : Request) (st : STATE)
  : Response * STATE :=
  match body request with
  | None => (web_Response None 500, st)
  | Some data =>
      let pin := data !! "pin" in
      if negb (pin_request_active st) then (web_Response None 400, st)
      else if pin_differs pin (current_pin st) then (web_Response None 403, st)
      else
        (json_response [("description", fresh)] 200,
         {| pin_request_active := false;
            current_pin := current_pin st;
            authenticated_tokens := <[ fresh := true ]> (authenticated_tokens st) |})
  end.

(** [not token or token not in STATE["authenticated_tokens"]] *)
Definition unauthorized (request : Request) (st : STATE) : bool :=
  match x_client_token request with
  | None => true
  | Some token =>
      negb (Py.truthy token) ||
      match authenticated_tokens st !! token with
      | Some _ => false
      | None => true
      end
  end.

Definition handle_navigation_command (request : Request) (st : STATE)
  : Response * STATE :=
  if unauthorized request st then (web_Response None 401, st)
  else (web_Response None 200, st).

Definition handle_media_command (request : Request) (st : STATE)
  : Response * STATE :=
  if unauthorized request st then (web_Response None 401, st)
  else (web_Response None 200, st).

Definition handle_app_launch (request : Request) (st : STATE)
  : Response * STATE :=
  if unauthorized request st then (web_Response None 401, st)
  else (web_Response None 200, st).

(** The routes of [main]: one request to the simulator.  The two generated
    values are given with the request that consumes them. *)
Inductive route :=
| GET_root
| POST_wake
| POST_pin_display (draw : Z)
| POST_pin_verify (fresh : string)
| POST_navigation
| POST_media
| POST_app_launch.

Definition serve (r : route) (request : Request) (st : STATE) : Response * STATE :=
  match r with
  | GET_root => handle_root request st
  | POST_wake => handle_wake request st
  | POST_pin_display draw => handle_pin_display draw request st
  | POST_pin_verify fresh => handle_pin_verify fresh request st
  | POST_navigation => handle_navigation_command request st
  | POST_media => handle_media_command request st
  | POST_app_launch => handle_app_launch request st
  end.

(** A sequence of requests served one after the other. *)
Fixpoint serve_all (reqs : list (route * Request)) (st : STATE) : STATE :=
  match reqs with
  | [] => st
  | (r, request) :: reqs' => serve_all reqs' (snd (serve r request st))
  end.

(** A route draws a PIN the way [secrets.randbelow(10000)] can. *)
Definition draw_in_range (r : route) : Prop :=
  match r with
  | POST_pin_display draw => 0 <= draw < 10000
  | _ => True
  end.

Definition is_pin (s : string) : bool :=
  (String.length s =? 4)%nat && all_chars Py.is_digit s.

Definition with_token (token : string) : Request :=
  {| body := None; x_client_token := Some token |}.

Definition with_json (data : gmap string jvalue) : Request :=
  {| body := Some data; x_client_token := None |}.

End Simulator.

(** ** Shapes of outcomes *)

(** An instance of [Exception] that leaves a step is a [ValueError]; it
    leaves the flow untouched when the step had done nothing, and idle
    otherwise. *)
Definition failure_shape (flow : FireTVSetupFlow) {A}
           (o : Outcome FireTVSetupFlow A) : Prop :=
  forall e, result o = inl e -> is_Exception e = true ->
    exn_cls e = ValueError /\
    ((emitted o = [] /\ final o = flow) \/
     (emitted o <> [] /\ final o = {| _temp_host := None; _temp_port := 8080 |})).


(** * Properties *)

(** ** Strings *)

Lemma startswith_split (p s : string) :
  Py.startswith s p = true -> exists rest, s = p +:+ rest.
Proof.
  revert s.
  induction p as [|a p IH]; intros s Hp.
  - exists s. reflexivity.
  - destruct s as [|b s]; simpl in Hp; [discriminate|].
    apply andb_true_iff in Hp as [Hab Hp].
    apply Ascii.eqb_eq in Hab as ->.
    destruct (IH s Hp) as [rest ->]. exists rest. reflexivity.
Qed.

Lemma startswith_append (p rest : string) :
  Py.startswith (p +:+ rest) p = true.
Proof.
  induction p as [|a p IH]; simpl; [reflexivity|].
  rewrite Ascii.eqb_refl. exact IH.
Qed.

Lemma replace_absent (old new s : string) :
  Py.contains s old = false -> Py.replace s old new = s.
Proof.
  unfold Py.replace.
  induction s as [|c s IH]; intros Hc; [reflexivity|].
  simpl in Hc. apply orb_false_iff in Hc as [Hp Hs].
  cbn [Py.replace_from]. rewrite Hp, (IH Hs). reflexivity.
Qed.

(** Removing [LAUNCH_] from a command that starts with it removes the
    prefix and goes on in the rest. *)
Lemma replace_launch_prefix (rest : string) :
  Py.replace ("LAUNCH_" +:+ rest) "LAUNCH_" "" = Py.replace rest "LAUNCH_" "".
Proof. reflexivity. Qed.

Lemma launch_prefixed_not_a_key (rest : string) :
  dict_get nav_commands (Py.lower ("LAUNCH_" +:+ rest)) = None /\
  dict_get media_commands (Py.lower ("LAUNCH_" +:+ rest)) = None.
Proof. split; reflexivity. Qed.

Lemma custom_app_prefixed_not_a_key (rest : string) :
  dict_get nav_commands (Py.lower ("custom_app:" +:+ rest)) = None /\
  dict_get media_commands (Py.lower ("custom_app:" +:+ rest)) = None.
Proof. split; reflexivity. Qed.

(** The text functions on characters outside ASCII: U+00A0 is white space
    for [strip] and [int], the control character US is white space for
    [strip] only, [int] reads the digits of any script (here the
    Arabic-Indic digits eight and zero), the lower case of U+212A is [k] and
    the upper case of U+00DF is [SS]. *)
Example text_outside_ascii :
  Py.strip (NBSP +:+ "1234" +:+ NBSP) = "1234" /\
  Py.strip NBSP = "" /\
  Py.strip (String "031" "80") = "80" /\
  Py.int_of_str (String "031" "80") = None /\
  Py.int_of_str ("80" +:+ NBSP) = Some 80 /\
  Py.int_of_str (String "217" (String "168" (String "217" (String "160" "")))) =
  Some 80 /\
  Py.int_of_str " +8_0 " = Some 80 /\
  Py.lower ("BAC" +:+ KELVIN) = "back" /\
  Py.upper (String "195" (String "159" "")) = "SS".
Proof. vm_compute. repeat split. Qed.

(** ** Running the model *)

(** One step of a run: the monad operations are unfolded where the part of
    the run before them is known. *)
Ltac run :=
  try unfold bind; try unfold try_except;
  cbn [and_then on_error prepend ret raise get put emit close request
       await_sleep subscript set_temp set_state result final emitted
       nth_error negb is_Exception exn_cls].

(** Case analysis on every answer of the environment [T] that the goal waits
    for, and on the class of every exception it raises. *)
Ltac answers T :=
  repeat match goal with
         | |- context [T ?c ?hh] =>
             let a := fresh "answer" in
             destruct (T c hh) as [?|a]; run;
             try (destruct a; run)
         | |- context [is_Exception ?e] =>
             destruct (is_Exception e) eqn:?; run
         end.

(** ** The command translator ([FireTVDevice.send_command]) *)

Section DeviceProperties.
Variable FIRE_TV_TOP_APPS : list (string * AppData).
Variable validate_package_name : string -> bool.

Local Abbreviation send := (send_command FIRE_TV_TOP_APPS validate_package_name).

Lemma send_command_no_client (command : string) (T : Transport)
      (dev : FireTVDevice) (h : list event) :
  _client dev = None ->
  send command T dev h = MkOutcome (inr false) dev [].
Proof.
  intros Hc. unfold send_command. run. rewrite Hc. reflexivity.
Qed.

(** The loop stops at the first entry whose normalised name is the command
    without its [LAUNCH_] occurrences, and launches that entry's package. *)
Lemma launch_loop_find (apps : list (string * AppData)) (command : string)
      (T : Transport) (dev : FireTVDevice) (h : list event) :
  launch_loop apps command T dev h =
  match find_app apps (Py.replace command "LAUNCH_" "") with
  | Some app_data =>
      MkOutcome (T (launch_app (app_package app_data)) h) dev
                [EvCall (launch_app (app_package app_data))]
  | None => MkOutcome (inr false) dev []
  end.
Proof.
  induction apps as [|[app_id app_data] apps IH]; [reflexivity|].
  cbn [launch_loop find_app].
  destruct (String.eqb (normalized_name app_data) _); [reflexivity | exact IH].
Qed.

Lemma send_command_launch (rest : string) (T : Transport)
      (dev : FireTVDevice) (h : list event) (client : FireTVClient) :
  _client dev = Some client ->
  send ("LAUNCH_" +:+ rest) T dev h =
  match find_app FIRE_TV_TOP_APPS (Py.replace rest "LAUNCH_" "") with
  | Some app_data =>
      MkOutcome (caught (T (launch_app (app_package app_data)) h)) dev
                [EvCall (launch_app (app_package app_data))]
  | None => MkOutcome (inr false) dev []
  end.
Proof.
  intros Hc. unfold send_command. run. rewrite Hc. run.
  destruct (launch_prefixed_not_a_key rest) as [-> ->].
  rewrite startswith_append. run.
  rewrite launch_loop_find, replace_launch_prefix, app_nil_r.
  destruct (find_app _ _) as [app_data|]; [|reflexivity].
  run. destruct (T _ h) as [e|b]; run; [|reflexivity].
  unfold caught. destruct (is_Exception e); reflexivity.
Qed.

Lemma send_command_custom_app (rest : string) (T : Transport)
      (dev : FireTVDevice) (h : list event) (client : FireTVClient) :
  _client dev = Some client ->
  send ("custom_app:" +:+ rest) T dev h =
  if validate_package_name (Py.strip rest)
  then MkOutcome (caught (T (launch_app (Py.strip rest)) h)) dev
                 [EvCall (launch_app (Py.strip rest))]
  else MkOutcome (inr false) dev [].
Proof.
  intros Hc. unfold send_command. run. rewrite Hc. run.
  destruct (custom_app_prefixed_not_a_key rest) as [-> ->].
  change (Py.startswith ("custom_app:" +:+ rest) "LAUNCH_") with false.
  rewrite startswith_append. cbv iota.
  change (Py.split1 ("custom_app:" +:+ rest) ":") with ["custom_app"; rest].
  run.
  destruct (validate_package_name (Py.strip rest)); run; [|reflexivity].
  rewrite !app_nil_r. destruct (T _ h) as [e|b]; run; [|reflexivity].
  unfold caught. destruct (is_Exception e); reflexivity.
Qed.

(** No instance of [Exception] leaves [send_command]: what a client call
    raises inside the [try] block ends in the [except Exception] clause,
    unless its class is outside [Exception]. *)
Lemma send_command_raises_no_Exception (command : string) (T : Transport)
      (dev : FireTVDevice) (h : list event) (e : exn) :
  result (send command T dev h) = inl e -> is_Exception e = false.
Proof.
  unfold send_command. run.
  destruct (_client dev) as [client|]; run; [|discriminate].
  destruct (dict_get nav_commands _) as [m|].
  { run. answers T; congruence. }
  destruct (dict_get media_commands _) as [m|].
  { run. answers T; congruence. }
  destruct (Py.startswith command "LAUNCH_").
  { rewrite launch_loop_find.
    destruct (find_app _ _) as [app_data|]; run; [|discriminate].
    answers T; congruence. }
  destruct (Py.startswith command "custom_app:"); [|run; discriminate].
  unfold subscript. destruct (nth_error _ 1) as [after|]; run; [|discriminate].
  destruct (validate_package_name _); run; [|discriminate].
  answers T; congruence.
Qed.

(** C10.  With no client created ([_client] is [None]), [send_command]
    returns [False] for every command string: it raises nothing, leaves the
    device object as it was and performs no transport call. *)
Theorem send_command_without_client (command : string) (T : Transport)
        (dev : FireTVDevice) (h : list event) :
  _client dev = None ->
  result (send command T dev h) = inr false /\
  final (send command T dev h) = dev /\
  emitted (send command T dev h) = [].
Proof.
  intros Hc. rewrite (send_command_no_client command T dev h Hc).
  repeat split.
Qed.

(** C4, as amended.  For a command whose lower-cased name is one of the
    eighteen keys of the two dispatch tables, the outcome of [send_command]
    is the same for every spelling of the name that differs in letter case
    only.  (The [LAUNCH_] and [custom_app:] forms are matched as written.) *)
Theorem send_command_key_case_insensitive (c1 c2 : string) (T : Transport)
        (dev : FireTVDevice) (h : list event) :
  Py.lower c1 = Py.lower c2 ->
  is_Some (dict_get nav_commands (Py.lower c1)) \/
  is_Some (dict_get media_commands (Py.lower c1)) ->
  send c1 T dev h = send c2 T dev h.
Proof.
  intros Hlow Hkey. unfold send_command. run.
  destruct (_client dev) as [client|]; [|reflexivity].
  run. rewrite <- Hlow.
  destruct (dict_get nav_commands (Py.lower c1)) as [m|]; [reflexivity|].
  destruct (dict_get media_commands (Py.lower c1)) as [m|]; [reflexivity|].
  destruct Hkey as [[m Hm]|[m Hm]]; discriminate.
Qed.

Lemma find_app_registered (apps : list (string * AppData))
      (app_id : string) (app_data : AppData) :
  List.NoDup (map (fun entry => normalized_name (snd entry)) apps) ->
  In (app_id, app_data) apps ->
  find_app apps (normalized_name app_data) = Some app_data.
Proof.
  induction apps as [|[id' app'] apps IH]; intros Hnd Hin; [destruct Hin|].
  cbn [map snd] in Hnd. apply List.NoDup_cons_iff in Hnd as [Hfresh Hnd].
  cbn [find_app].
  destruct Hin as [[= -> ->]|Hin].
  - rewrite String.eqb_refl. reflexivity.
  - destruct (String.eqb_spec (normalized_name app') (normalized_name app_data))
      as [Heq|Hne]; [|exact (IH Hnd Hin)].
    exfalso. apply Hfresh. rewrite Heq.
    apply (in_map (fun entry => normalized_name (snd entry)) apps _ Hin).
Qed.

Lemma find_app_unregistered (apps : list (string * AppData)) (wanted : string) :
  (forall app_id app_data,
      In (app_id, app_data) apps -> normalized_name app_data <> wanted) ->
  find_app apps wanted = None.
Proof.
  induction apps as [|[id' app'] apps IH]; intros Hno; [reflexivity|].
  cbn [find_app].
  destruct (String.eqb_spec (normalized_name app') wanted) as [Heq|Hne].
  - exfalso. exact (Hno id' app' (or_introl eq_refl) Heq).
  - apply IH. intros app_id app_data Hin. exact (Hno app_id app_data (or_intror Hin)).
Qed.

(** C5.  In a registry whose normalised display names are pairwise distinct
    and free of the text [LAUNCH_], the command [LAUNCH_<NAME>] that the
    top-apps page builds for an entry makes [send_command] call [launch_app]
    with exactly that entry's package, once; and a command starting with
    [LAUNCH_] that matches no entry returns [False] with no transport call. *)
Theorem launch_command_round_trip (T : Transport) (dev : FireTVDevice)
        (h : list event) :
  (forall app_id app_data client,
      List.NoDup (map (fun entry => normalized_name (snd entry)) FIRE_TV_TOP_APPS) ->
      In (app_id, app_data) FIRE_TV_TOP_APPS ->
      Py.contains (normalized_name app_data) "LAUNCH_" = false ->
      _client dev = Some client ->
      send (launch_command app_data) T dev h =
      MkOutcome (caught (T (launch_app (app_package app_data)) h)) dev
                [EvCall (launch_app (app_package app_data))]) /\
  (forall command,
      Py.startswith command "LAUNCH_" = true ->
      (forall app_id app_data,
          In (app_id, app_data) FIRE_TV_TOP_APPS ->
          normalized_name app_data <> Py.replace command "LAUNCH_" "") ->
      send command T dev h = MkOutcome (inr false) dev []).
Proof.
  split.
  - intros app_id app_data client Hnd Hin Hfree Hc.
    unfold launch_command.
    change (cmd_name app_data) with (normalized_name app_data).
    rewrite (send_command_launch _ T dev h client Hc).
    rewrite (replace_absent _ _ _ Hfree).
    rewrite (find_app_registered _ app_id app_data Hnd Hin). reflexivity.
  - intros command Hpre Hno.
    destruct (_client dev) as [client|] eqn:Hc;
      [|exact (send_command_no_client command T dev h Hc)].
    destruct (startswith_split _ _ Hpre) as [rest ->].
    rewrite (send_command_launch _ T dev h client Hc).
    rewrite replace_launch_prefix in Hno.
    rewrite (find_app_unregistered _ _ Hno). reflexivity.
Qed.

(** C6.  For a command [custom_app:<text>] sent through a device that has a
    client, the package is [<text>] (all that follows the first colon)
    without its surrounding whitespace; [launch_app] is called with it, once,
    exactly when [validate_package_name] accepts it, and otherwise the result
    is [False] and there is no transport call. *)
Theorem custom_app_forwarded_iff_valid (rest : string) (T : Transport)
        (dev : FireTVDevice) (h : list event) (client : FireTVClient) :
  _client dev = Some client ->
  let package := Py.strip rest in
  let o := send ("custom_app:" +:+ rest) T dev h in
  Py.split1 ("custom_app:" +:+ rest) ":" = ["custom_app"; rest] /\
  emitted o =
    (if validate_package_name package then [EvCall (launch_app package)] else []) /\
  result o =
    (if validate_package_name package
     then caught (T (launch_app package) h) else inr false) /\
  final o = dev.
Proof.
  intros Hc package o. subst o package.
  rewrite (send_command_custom_app rest T dev h client Hc).
  split; [reflexivity|].
  destruct (validate_package_name (Py.strip rest)); repeat split.
Qed.

End DeviceProperties.

(** C9.  [check_client_connected] returns [True] exactly when the client
    exists, its session exists and the session is not closed; it changes
    nothing in the device object and performs no transport call. *)
Theorem check_client_connected_spec (T : Transport) (dev : FireTVDevice)
        (h : list event) :
  exists b : bool,
    check_client_connected T dev h = MkOutcome (inr b) dev [] /\
    (b = true <->
     exists client sess,
       _client dev = Some client /\ session client = Some sess /\
       closed sess = false).
Proof.
  unfold check_client_connected. run.
  destruct (_client dev) as [client|].
  - destruct (session client) as [sess|] eqn:Hs.
    + destruct (closed sess) eqn:Hcl.
      * exists false. split; [reflexivity|].
        split; [discriminate|].
        intros (c & s0 & [= <-] & Hs' & Hcl'). congruence.
      * exists true. split; [reflexivity|].
        split; [|reflexivity]. intros _. exists client, sess. auto.
    + exists false. split; [reflexivity|].
      split; [discriminate|].
      intros (c & s0 & [= <-] & Hs' & _). congruence.
  - exists false. split; [reflexivity|].
    split; [discriminate|]. intros (c & s0 & [=] & _).
Qed.

(** ** The translator on concrete commands *)

Ltac distinct_strings :=
  vm_compute;
  repeat (constructor; [simpl; intuition discriminate|]);
  constructor.

Lemma sample_apps_names_distinct :
  List.NoDup (map (fun entry => normalized_name (snd entry)) sample_apps).
Proof. distinct_strings. Qed.

Example spec_validate_package_name_examples :
  spec_validate_package_name "com.spotify.tv.android" = true /\
  spec_validate_package_name "notapackage" = false /\
  spec_validate_package_name "com..android" = false /\
  spec_validate_package_name "com.hulu-plus" = false.
Proof. repeat split. Qed.

Example top_apps_page_commands_sample :
  top_apps_page_commands sample_apps =
  ["LAUNCH_NETFLIX"; "LAUNCH_PRIME_VIDEO"; "LAUNCH_DISNEYPLUS"; "LAUNCH_PLEX";
   "LAUNCH_KODI"].
Proof. reflexivity. Qed.

(** [command.replace('LAUNCH_', '')] removes the text wherever it stands, so
    a command with a second [LAUNCH_] inside the name is compared without
    it. *)
Example launch_text_removed_everywhere :
  Py.replace "LAUNCH_NETLAUNCH_FLIX" "LAUNCH_" "" = "NETFLIX" /\
  send_command sample_apps spec_validate_package_name "LAUNCH_NETLAUNCH_FLIX"
               accepting connected_device [] =
  MkOutcome (inr true) connected_device [EvCall (launch_app "com.netflix.ninja")].
Proof. split; reflexivity. Qed.

Lemma send_command_without_client_witness :
  _client fresh_device = None /\
  result (send_command sample_apps spec_validate_package_name "HOME"
                       accepting fresh_device []) = inr false /\
  final (send_command sample_apps spec_validate_package_name "HOME"
                      accepting fresh_device []) = fresh_device /\
  emitted (send_command sample_apps spec_validate_package_name "HOME"
                        accepting fresh_device []) = [].
Proof.
  split; [reflexivity|].
  apply (send_command_without_client sample_apps spec_validate_package_name
           "HOME" accepting fresh_device []).
  reflexivity.
Defined.

Lemma send_command_key_case_insensitive_witness :
  send_command sample_apps spec_validate_package_name "Dpad_Up"
               accepting connected_device [] =
  send_command sample_apps spec_validate_package_name "DPAD_UP"
               accepting connected_device [].
Proof.
  apply (send_command_key_case_insensitive sample_apps spec_validate_package_name
           "Dpad_Up" "DPAD_UP" accepting connected_device []).
  - vm_compute. reflexivity.
  - left. exists dpad_up. reflexivity.
Defined.

(** C4, as stated, fails: the two app-launch forms are recognised in one
    spelling only.  The same command in another letter case is an unknown
    command, answered [False] without a transport call. *)
Lemma launch_forms_case_sensitive :
  (Py.lower "launch_netflix" = Py.lower "LAUNCH_NETFLIX" /\
   send_command sample_apps spec_validate_package_name "LAUNCH_NETFLIX"
                accepting connected_device [] =
   MkOutcome (inr true) connected_device [EvCall (launch_app "com.netflix.ninja")] /\
   send_command sample_apps spec_validate_package_name "launch_netflix"
                accepting connected_device [] =
   MkOutcome (inr false) connected_device []) /\
  (Py.lower "CUSTOM_APP:com.spotify.tv.android" =
   Py.lower "custom_app:com.spotify.tv.android" /\
   send_command sample_apps spec_validate_package_name
                "custom_app:com.spotify.tv.android" accepting connected_device [] =
   MkOutcome (inr true) connected_device
             [EvCall (launch_app "com.spotify.tv.android")] /\
   send_command sample_apps spec_validate_package_name
                "CUSTOM_APP:com.spotify.tv.android" accepting connected_device [] =
   MkOutcome (inr false) connected_device []).
Proof. vm_compute. repeat split. Qed.

Lemma launch_command_round_trip_witness :
  send_command sample_apps spec_validate_package_name "LAUNCH_DISNEYPLUS"
               accepting connected_device [] =
  MkOutcome (inr true) connected_device
            [EvCall (launch_app "com.disney.disneyplus")] /\
  send_command sample_apps spec_validate_package_name "LAUNCH_HULU"
               accepting connected_device [] =
  MkOutcome (inr false) connected_device [].
Proof.
  destruct (launch_command_round_trip sample_apps spec_validate_package_name
              accepting connected_device []) as [Hknown Hunknown].
  split.
  - apply (Hknown "disney_plus"
                  {| app_name := "Disney+"; app_package := "com.disney.disneyplus" |}
                  sample_client).
    + exact sample_apps_names_distinct.
    + simpl. auto.
    + reflexivity.
    + reflexivity.
  - apply (Hunknown "LAUNCH_HULU"); [reflexivity|].
    intros app_id app_data Hin. simpl in Hin.
    repeat (destruct Hin as [[= <- <-]|Hin]; [vm_compute; discriminate|]).
    destruct Hin.
Defined.

Lemma custom_app_forwarded_iff_valid_witness :
  emitted (send_command sample_apps spec_validate_package_name
                        "custom_app: com.spotify.tv.android " accepting
                        connected_device []) =
  [EvCall (launch_app "com.spotify.tv.android")] /\
  emitted (send_command sample_apps spec_validate_package_name
                        ("custom_app:" +:+ NBSP +:+ "com.spotify.tv.android")
                        accepting connected_device []) =
  [EvCall (launch_app "com.spotify.tv.android")] /\
  emitted (send_command sample_apps spec_validate_package_name
                        "custom_app:notapackage" accepting connected_device []) = [].
Proof.
  split; [|split].
  - apply (custom_app_forwarded_iff_valid sample_apps spec_validate_package_name
             " com.spotify.tv.android " accepting connected_device []
             sample_client eq_refl).
  - apply (custom_app_forwarded_iff_valid sample_apps spec_validate_package_name
             (NBSP +:+ "com.spotify.tv.android") accepting connected_device []
             sample_client eq_refl).
  - apply (custom_app_forwarded_iff_valid sample_apps spec_validate_package_name
             "notapackage" accepting connected_device [] sample_client eq_refl).
Defined.

(** ** The remote entity's command handler *)

(** The [except TokenInvalidError] clause of [_handle_command] is never
    entered: no instance of [Exception] leaves its [try] block. *)
Lemma handle_command_never_unauthorized
      (apps : list (string * AppData)) (validate : string -> bool)
      (cmd_id : string) (params : option (gmap string string))
      (T : Transport) (remote : FireTVRemote) (h : list event) :
  result (_handle_command apps validate cmd_id params T remote h) <> inr UNAUTHORIZED.
Proof.
  unfold _handle_command. run.
  destruct (if String.eqb cmd_id "send_cmd" then command_param params else None)
    as [command|].
  - run. unfold on_device.
    pose proof (send_command_raises_no_Exception apps validate command T
                  (_device remote) h) as Hraise.
    destruct (send_command apps validate command T (_device remote) h)
      as [[e|b] dev' ev]; cbn in Hraise; run.
    + rewrite (Hraise e eq_refl). discriminate.
    + destruct b; discriminate.
  - destruct (String.eqb cmd_id "on"); [discriminate|].
    destruct (String.eqb cmd_id "off"); [discriminate|].
    destruct (String.eqb cmd_id "toggle"); discriminate.
Qed.

(** C1, evaluated where the code departs from it.  The device rejects the
    token, so [client.dpad_up()] raises [TokenInvalidError]; [send_command]
    returns the plain [False] instead of letting the exception through, and
    [_handle_command] answers [SERVER_ERROR], not [UNAUTHORIZED]. *)
Theorem token_invalid_error_is_swallowed :
  token_rejecting (key dpad_up) [] = inl (Exn TokenInvalidError "token rejected") /\
  send_command sample_apps spec_validate_package_name "DPAD_UP"
               token_rejecting connected_device [] =
  MkOutcome (inr false) connected_device [EvCall (key dpad_up)] /\
  result (_handle_command sample_apps spec_validate_package_name "send_cmd"
                          (Some {[ "command" := "DPAD_UP" ]}) token_rejecting
                          {| _device := connected_device; attributes_STATE := ON |}
                          []) = inr SERVER_ERROR.
Proof. repeat split. Qed.

(** ** The pairing flow ([FireTVSetupFlow]) *)

Lemma verify_pin_step_blank_pin (input_values : gmap string string)
      (T : Transport) (flow : FireTVSetupFlow) (h : list event) :
  Py.truthy (Py.strip (default "" (input_values !! "pin"))) = false ->
  _verify_pin_step input_values T flow h =
  MkOutcome (inl (Exn ValueError "PIN is required")) flow [].
Proof. intros Hpin. unfold _verify_pin_step. rewrite Hpin. reflexivity. Qed.

Lemma verify_pin_step_no_host (input_values : gmap string string)
      (T : Transport) (flow : FireTVSetupFlow) (h : list event) :
  Py.truthy (Py.strip (default "" (input_values !! "pin"))) = true ->
  truthy_opt (_temp_host flow) = false ->
  _verify_pin_step input_values T flow h =
  MkOutcome
    (inl (Exn ValueError "Setup flow error: no host stored from previous step"))
    flow [].
Proof.
  intros Hpin Hhost. unfold _verify_pin_step. rewrite Hpin. run.
  rewrite Hhost. reflexivity.
Qed.

Lemma initial_connection_step_rejects (input_values : gmap string string)
      (T : Transport) (flow : FireTVSetupFlow) (h : list event) :
  Py.truthy (input_host input_values) = false \/ input_port input_values = None ->
  _initial_connection_step input_values T flow h =
  MkOutcome
    (inl (Exn ValueError (if Py.truthy (input_host input_values)
                          then "Port must be a number"
                          else "IP address is required")))
    flow [].
Proof.
  intros Hbad. unfold _initial_connection_step.
  destruct (Py.truthy (input_host input_values)); [|reflexivity].
  destruct Hbad as [Hhost|Hport]; [discriminate|].
  rewrite Hport. reflexivity.
Qed.

(** C2, evaluated where the code departs from it.  After a successful first
    step the flow holds the candidate host; a PIN of blanks then fails with
    [ValueError("PIN is required")] before any client exists, and the flow
    still holds the candidate host and port afterwards. *)
Theorem blank_pin_keeps_pairing_context :
  query_device {[ "pin" := "  " ]} accepting awaiting_pin_flow [] =
  MkOutcome (inl (Exn ValueError "PIN is required")) awaiting_pin_flow [] /\
  _temp_host awaiting_pin_flow = Some "192.168.1.50" /\
  final (query_device {[ "pin" := "1234" ]} unreachable awaiting_pin_flow []) =
  idle_flow.
Proof. repeat split. Qed.

(** [query_device] hands the input to one of the two steps and returns what
    the step returns. *)
Lemma query_device_via_steps (input_values : gmap string string)
      (T : Transport) (flow : FireTVSetupFlow) (h : list event) :
  query_device input_values T flow h =
  if dict_has input_values "pin" && truthy_opt (_temp_host flow)
  then let o := _verify_pin_step input_values T flow h in
       MkOutcome (match result o with
                  | inl e => inl e
                  | inr config => inr (inl config)
                  end) (final o) (emitted o)
  else let o := _initial_connection_step input_values T flow h in
       MkOutcome (match result o with
                  | inl e => inl e
                  | inr form => inr (inr form)
                  end) (final o) (emitted o).
Proof.
  unfold query_device. run. rewrite app_nil_r.
  destruct (dict_has input_values "pin" && truthy_opt (_temp_host flow)); cbv zeta.
  - destruct (_verify_pin_step input_values T flow h) as [[e|config] s ev];
      run; rewrite ?app_nil_r; reflexivity.
  - destruct (_initial_connection_step input_values T flow h) as [[e|form] s ev];
      run; rewrite ?app_nil_r; reflexivity.
Qed.

(** With a host and a port in the input, the first things the initial step
    does are creating the client for that address and sending the wake-up
    request. *)
Lemma initial_connection_step_contacts (input_values : gmap string string)
      (T : Transport) (flow : FireTVSetupFlow) (h : list event) (port : Z) :
  Py.truthy (input_host input_values) = true ->
  input_port input_values = Some port ->
  exists rest,
    emitted (_initial_connection_step input_values T flow h) =
    EvCreate (input_host input_values) port :: EvCall wake_up :: rest.
Proof.
  intros Hhost Hport. unfold _initial_connection_step. cbv zeta.
  rewrite Hhost, Hport. run.
  answers T; eexists; reflexivity.
Qed.

(** C3, as stated, fails: with no candidate host stored, an input that
    carries a PIN never reaches the PIN step; when it also carries a host it
    is a request to start pairing and the device is contacted. *)
Lemma pin_with_host_starts_pairing :
  _temp_host idle_flow = None /\
  query_device (<[ "host" := "10.0.0.7" ]> {[ "pin" := "1234" ]})
               accepting idle_flow [] =
  MkOutcome (inr (inr pin_form))
            {| _temp_host := Some "10.0.0.7"; _temp_port := 8080 |}
            [EvCreate "10.0.0.7" 8080; EvCall wake_up; EvSleep 3;
             EvCall (test_connection 3 3); EvCall (request_pin "UC Remote");
             EvClose].
Proof. split; reflexivity. Qed.

(** C3, as amended.  With no candidate host stored, [query_device] takes
    every input, with or without a PIN, as a request to start pairing: its
    outcome is that of [_initial_connection_step].  An input without a usable
    address (host missing or blank, or port not a number) fails at once with
    a [ValueError]: the flow is unchanged, no client is created and nothing
    is sent.  An input with a non-blank host and a numeric port has a client
    created for that address and the wake-up request sent to the device.
    [_verify_pin_step] itself, entered without a stored host, fails at once
    with a [ValueError], the flow unchanged and nothing sent. *)
Theorem pin_without_stored_host_fails_fast (input_values : gmap string string)
        (T : Transport) (flow : FireTVSetupFlow) (h : list event) :
  truthy_opt (_temp_host flow) = false ->
  let o := query_device input_values T flow h in
  let step := _initial_connection_step input_values T flow h in
  (result o = match result step with
              | inl e => inl e
              | inr form => inr (inr form)
              end /\
   final o = final step /\ emitted o = emitted step) /\
  (Py.truthy (input_host input_values) = false \/ input_port input_values = None ->
   o = MkOutcome
         (inl (Exn ValueError (if Py.truthy (input_host input_values)
                               then "Port must be a number"
                               else "IP address is required")))
         flow []) /\
  (forall port,
      Py.truthy (input_host input_values) = true ->
      input_port input_values = Some port ->
      exists rest,
        emitted o = EvCreate (input_host input_values) port :: EvCall wake_up :: rest) /\
  _verify_pin_step input_values T flow h =
  MkOutcome
    (inl (Exn ValueError
            (if Py.truthy (Py.strip (default "" (input_values !! "pin")))
             then "Setup flow error: no host stored from previous step"
             else "PIN is required")))
    flow [].
Proof.
  intros Hidle o step. subst o step.
  rewrite query_device_via_steps, Hidle, andb_false_r. cbv zeta.
  split; [repeat split|].
  split.
  { intros Hbad.
    rewrite (initial_connection_step_rejects input_values T flow _ Hbad).
    reflexivity. }
  split.
  { intros port Hhost Hport. cbn [emitted].
    exact (initial_connection_step_contacts input_values T flow h port Hhost Hport). }
  destruct (Py.truthy (Py.strip (default "" (input_values !! "pin")))) eqn:Hpin.
  - exact (verify_pin_step_no_host input_values T flow h Hpin Hidle).
  - exact (verify_pin_step_blank_pin input_values T flow h Hpin).
Qed.

Lemma pin_without_stored_host_fails_fast_witness :
  truthy_opt (_temp_host idle_flow) = false /\
  query_device {[ "pin" := "1234" ]} accepting idle_flow [] =
  MkOutcome (inl (Exn ValueError "IP address is required")) idle_flow [] /\
  query_device (<[ "host" := NBSP ]> {[ "pin" := "1234" ]}) accepting idle_flow [] =
  MkOutcome (inl (Exn ValueError "IP address is required")) idle_flow [] /\
  (exists rest,
      emitted (query_device (<[ "port" := "80" +:+ NBSP ]>
                               (<[ "host" := "10.0.0.7" ]> {[ "pin" := "1234" ]}))
                            accepting idle_flow []) =
      EvCreate "10.0.0.7" 80 :: EvCall wake_up :: rest) /\
  _verify_pin_step {[ "pin" := NBSP ]} accepting idle_flow [] =
  MkOutcome (inl (Exn ValueError "PIN is required")) idle_flow [].
Proof.
  split; [reflexivity|].
  split.
  { destruct (pin_without_stored_host_fails_fast
                {[ "pin" := "1234" ]} accepting idle_flow [] eq_refl)
      as (_ & Hbad & _ & _).
    apply Hbad. left. vm_compute. reflexivity. }
  split.
  { destruct (pin_without_stored_host_fails_fast
                (<[ "host" := NBSP ]> {[ "pin" := "1234" ]}) accepting idle_flow []
                eq_refl)
      as (_ & Hbad & _ & _).
    apply Hbad. left. vm_compute. reflexivity. }
  split.
  { destruct (pin_without_stored_host_fails_fast
                (<[ "port" := "80" +:+ NBSP ]>
                   (<[ "host" := "10.0.0.7" ]> {[ "pin" := "1234" ]}))
                accepting idle_flow [] eq_refl)
      as (_ & _ & Hgood & _).
    destruct (Hgood 80) as [rest Hrest];
      [vm_compute; reflexivity | vm_compute; reflexivity |].
    exists rest. rewrite Hrest. vm_compute. reflexivity. }
  destruct (pin_without_stored_host_fails_fast
              {[ "pin" := NBSP ]} accepting idle_flow [] eq_refl)
    as (_ & _ & _ & Hpin).
  exact Hpin.
Defined.

(** ** Closing the client of a step *)












(** * Further properties of the sources *)

(** ** [FireTVDevice]: commands *)

Lemma dict_get_app {V} (d1 d2 : list (string * V)) (k : string) :
  dict_get (d1 ++ d2) k =
  match dict_get d1 k with
  | Some v => Some v
  | None => dict_get d2 k
  end.
Proof.
  induction d1 as [|[k' v] d1 IH]; [reflexivity|].
  cbn [app dict_get]. destruct (String.eqb k' k); [reflexivity | exact IH].
Qed.

Lemma send_command_key (apps : list (string * AppData)) (validate : string -> bool)
      (command : string) (m : client_method) (T : Transport)
      (dev : FireTVDevice) (h : list event) (client : FireTVClient) :
  _client dev = Some client ->
  dict_get (nav_commands ++ media_commands) (Py.lower command) = Some m ->
  send_command apps validate command T dev h =
  MkOutcome (caught (T (key m) h)) dev [EvCall (key m)].
Proof.
  intros Hc Hm. rewrite dict_get_app in Hm.
  unfold send_command. run. rewrite Hc. run. rewrite app_nil_r.
  destruct (dict_get nav_commands (Py.lower command)) as [m'|].
  - injection Hm as ->. run. unfold caught. answers T; reflexivity.
  - rewrite Hm. run. unfold caught. answers T; reflexivity.
Qed.

(** X1.  Through a device that has a client, a command whose lower-cased
    name is a key of the navigation or media table makes exactly one request,
    to the client method under that key, and nothing else; the result is the
    method's answer, or [False] when the method raised an instance of
    [Exception] (any other exception goes on to the caller). *)
Theorem send_command_key_dispatch
        (apps : list (string * AppData)) (validate : string -> bool)
        (command : string) (m : client_method) (T : Transport)
        (dev : FireTVDevice) (h : list event) (client : FireTVClient) :
  _client dev = Some client ->
  dict_get (nav_commands ++ media_commands) (Py.lower command) = Some m ->
  send_command apps validate command T dev h =
  MkOutcome (caught (T (key m) h)) dev [EvCall (key m)].
Proof. exact (send_command_key apps validate command m T dev h client). Qed.

Lemma send_command_key_dispatch_witness :
  send_command sample_apps spec_validate_package_name "Fast_Forward"
               unreachable connected_device [] =
  MkOutcome (inr false) connected_device [EvCall (key fast_forward)].
Proof.
  exact (send_command_key_dispatch sample_apps spec_validate_package_name
           "Fast_Forward" fast_forward unreachable connected_device []
           sample_client eq_refl eq_refl).
Defined.

Lemma send_command_effect
        (apps : list (string * AppData)) (validate : string -> bool)
        (command : string) (T : Transport) (dev : FireTVDevice) (h : list event) :
  let o := send_command apps validate command T dev h in
  (forall e, result o = inl e ->
             is_Exception e = false /\ exists c hh, T c hh = inl e) /\
  final o = dev /\
  (emitted o = [] \/
   (exists m, emitted o = [EvCall (key m)]) \/
   (exists package, emitted o = [EvCall (launch_app package)])).
Proof.
  cbv zeta. unfold send_command. run.
  destruct (_client dev) as [client|]; run; [|split; [discriminate|eauto]].
  destruct (dict_get nav_commands _) as [m|].
  { run. destruct (T (key m) _) as [e|b] eqn:Hcall; run;
      [destruct (is_Exception e) eqn:Hcls; run|];
      (split; [intros e' [= <-]; eauto | eauto 6]). }
  destruct (dict_get media_commands _) as [m|].
  { run. destruct (T (key m) _) as [e|b] eqn:Hcall; run;
      [destruct (is_Exception e) eqn:Hcls; run|];
      (split; [intros e' [= <-]; eauto | eauto 6]). }
  destruct (Py.startswith command "LAUNCH_").
  { rewrite launch_loop_find.
    destruct (find_app _ _) as [app_data|]; run; [|split; [discriminate|eauto]].
    destruct (T _ _) as [e|b] eqn:Hcall; run;
      [destruct (is_Exception e) eqn:Hcls; run|];
      (split; [intros e' [= <-]; eauto | eauto 6]). }
  destruct (Py.startswith command "custom_app:");
    [|run; split; [discriminate|eauto]].
  unfold subscript. destruct (nth_error _ 1) as [after|]; run;
    [|split; [discriminate|eauto]].
  destruct (validate _); run; [|split; [discriminate|eauto]].
  destruct (T _ _) as [e|b] eqn:Hcall; run;
    [destruct (is_Exception e) eqn:Hcls; run|];
    (split; [intros e' [= <-]; eauto | eauto 6]).
Qed.

(** X2.  Whatever the command and whatever the device does, no instance of
    [Exception] leaves [send_command]: an exception that leaves it is
    outside [Exception] (a cancellation) and was raised in a client call.
    [send_command] leaves the device object as it was and sends at most one
    request, which is a key press or an app launch: it never wakes the
    device, tests the connection or touches the pairing calls, and never
    opens or closes a client. *)
Theorem send_command_footprint
        (apps : list (string * AppData)) (validate : string -> bool)
        (command : string) (T : Transport) (dev : FireTVDevice) (h : list event) :
  let o := send_command apps validate command T dev h in
  (forall e, result o = inl e ->
             is_Exception e = false /\ exists c hh, T c hh = inl e) /\
  final o = dev /\
  (emitted o = [] \/
   (exists m, emitted o = [EvCall (key m)]) \/
   (exists package, emitted o = [EvCall (launch_app package)])).
Proof. exact (send_command_effect apps validate command T dev h). Qed.

(** A cancellation during the client call leaves [send_command]. *)
Example send_command_cancelled :
  send_command sample_apps spec_validate_package_name "DPAD_UP" cancelled
               connected_device [] =
  MkOutcome (inl (Exn (BaseOnly "CancelledError") "")) connected_device
            [EvCall (key dpad_up)].
Proof. vm_compute. reflexivity. Qed.

(** X3.  A command that is no key of the two tables in any letter case and
    starts with neither [LAUNCH_] nor [custom_app:] (the empty command among
    them) is answered [False] without a request, whether or not the device
    has a client. *)
Theorem send_command_unknown
        (apps : list (string * AppData)) (validate : string -> bool)
        (command : string) (T : Transport) (dev : FireTVDevice) (h : list event) :
  dict_get (nav_commands ++ media_commands) (Py.lower command) = None ->
  Py.startswith command "LAUNCH_" = false ->
  Py.startswith command "custom_app:" = false ->
  send_command apps validate command T dev h = MkOutcome (inr false) dev [].
Proof.
  intros Hkey Hl Hc. rewrite dict_get_app in Hkey.
  unfold send_command. run.
  destruct (_client dev) as [client|]; run; [|reflexivity].
  destruct (dict_get nav_commands (Py.lower command)); [discriminate|].
  rewrite Hkey, Hl, Hc. reflexivity.
Qed.

Lemma send_command_unknown_witness :
  send_command sample_apps spec_validate_package_name "" accepting
               connected_device [] =
  MkOutcome (inr false) connected_device [] /\
  send_command sample_apps spec_validate_package_name "Launch_Netflix" accepting
               connected_device [] =
  MkOutcome (inr false) connected_device [].
Proof.
  split.
  - exact (send_command_unknown sample_apps spec_validate_package_name ""
             accepting connected_device [] eq_refl eq_refl eq_refl).
  - exact (send_command_unknown sample_apps spec_validate_package_name
             "Launch_Netflix" accepting connected_device [] eq_refl eq_refl eq_refl).
Defined.

(** [str.lower] maps U+212A KELVIN SIGN to [k]: with it, [BAC] spells the
    key [back]. *)
Example kelvin_sign_spells_back :
  send_command sample_apps spec_validate_package_name ("BAC" +:+ KELVIN) accepting
               connected_device [] =
  MkOutcome (inr true) connected_device [EvCall (key back)].
Proof. vm_compute. reflexivity. Qed.

(** ** [FireTVDevice]: the client's life cycle *)

(** X4.  [connect_client] without a client raises [RuntimeError] and sends
    nothing.  With a client it tests the connection once, with 3 retries
    and a delay of 2 seconds: a true answer emits [CONNECTED] with the
    device identifier; a false answer raises [ConnectionError] naming the
    address; an exception of the test leaves [connect_client] as it is.  In
    the last two cases no event is emitted, and the client stays in place in
    all of them. *)
Theorem connect_client_outcome (T : Transport) (self : DeviceRuntime)
        (h : list event) :
  let o := connect_client T self h in
  match _client (self_device self) with
  | None =>
      o = MkOutcome
            (inl (Exn (OtherError "RuntimeError")
                      "Client not created. Call create_client() first."))
            self []
  | Some _ =>
      emitted o = [EvCall (test_connection 3 2)] /\
      match T (test_connection 3 2) h with
      | inr true =>
          result o = inr tt /\
          final o =
          {| self_device := self_device self;
             events_emitted :=
               events_emitted self ++
               [(CONNECTED, device_identifier (self_device self))] |}
      | inr false =>
          result o =
          inl (Exn (OtherError "ConnectionError")
                   ("Failed to connect to Fire TV at " +:+ address (self_device self))) /\
          final o = self
      | inl e => result o = inl e /\ final o = self
      end
  end.
Proof.
  cbv zeta. unfold connect_client. run.
  destruct (_client (self_device self)) as [client|]; [|reflexivity].
  run. rewrite app_nil_r.
  destruct (T (test_connection 3 2) h) as [e|[|]]; run;
    (split; [reflexivity|]); split; reflexivity.
Qed.

Lemma disconnect_client_run (T : Transport) (self : DeviceRuntime)
        (h : list event) :
  let o := disconnect_client T self h in
  result o = inr tt /\
  _client (self_device (final o)) = None /\
  _device_config (self_device (final o)) = _device_config (self_device self) /\
  events_emitted (final o) =
    events_emitted self ++ [(DISCONNECTED, device_identifier (self_device self))] /\
  emitted o =
    match _client (self_device self) with
    | Some _ => [EvClose]
    | None => []
    end.
Proof.
  cbv zeta. unfold disconnect_client, set_client, events_emit, close. run.
  destruct (_client (self_device self)) as [client|] eqn:Hc; run.
  - repeat split.
  - split; [reflexivity|]. split; [exact Hc|]. repeat split.
Qed.


(** X6.  After [disconnect_client] the device is inert: the health check
    answers [False], every command is answered [False] without a request,
    and a second [disconnect_client] closes nothing. *)
Theorem disconnected_device_is_inert
        (apps : list (string * AppData)) (validate : string -> bool)
        (T : Transport) (self : DeviceRuntime) (h : list event)
        (command : string) (T' : Transport) (h' : list event) :
  let after := final (disconnect_client T self h) in
  check_client_connected T' (self_device after) h' =
    MkOutcome (inr false) (self_device after) [] /\
  send_command apps validate command T' (self_device after) h' =
    MkOutcome (inr false) (self_device after) [] /\
  emitted (disconnect_client T' after h') = [].
Proof.
  cbv zeta.
  destruct (disconnect_client_run T self h) as (_ & Hnone & _).
  cbv zeta in Hnone.
  destruct (disconnect_client_run T' (final (disconnect_client T self h)) h')
    as (_ & _ & _ & _ & Hev).
  cbv zeta in Hev. rewrite Hnone in Hev.
  split; [|split; [|exact Hev]].
  - unfold check_client_connected. run. rewrite Hnone. reflexivity.
  - apply send_command_no_client. exact Hnone.
Qed.

(** X7.  [create_client] followed by [connect_client] constructs one client
    from the configured host, port and token, putting it in the place of
    any earlier client without closing that one, and tests the connection
    once.  The pair returns exactly when the test answers true, and then
    [CONNECTED] is the one event emitted; when the test fails or raises the
    new client stays in place and no event is emitted. *)
Theorem create_then_connect (new_session : option ClientSession)
        (T : Transport) (self : DeviceRuntime) (h : list event) :
  let config := _device_config (self_device self) in
  let o := (create_client new_session ;; connect_client) T self h in
  emitted o =
    [EvCreate (host config) (port config); EvCall (test_connection 3 2)] /\
  self_device (final o) =
    {| _device_config := config;
       _client := Some {| client_host := host config;
                          client_port := port config;
                          client_token := token config;
                          session := new_session |} |} /\
  (result o = inr tt <->
   T (test_connection 3 2) (h ++ [EvCreate (host config) (port config)]) = inr true) /\
  events_emitted (final o) =
    events_emitted self ++
    match result o with
    | inr _ => [(CONNECTED, identifier config)]
    | inl _ => []
    end.
Proof.
  cbv zeta. unfold create_client, connect_client, set_client, events_emit.
  do 3 (run; cbn [self_device _client events_emitted _device_config]).
  rewrite ?app_nil_r, <- ?app_assoc. cbn [app].
  destruct (T (test_connection 3 2) _) as [e|[|]];
    do 2 (run; cbn [self_device _client events_emitted _device_config]).
  - repeat split; try discriminate. symmetry. apply app_nil_r.
  - repeat split.
  - repeat split; try discriminate. symmetry. apply app_nil_r.
Qed.

(** ** [FireTVRemote]: the command handler *)

(** X8.  [_handle_command] with [send_cmd] and a command hands the command
    to the device and answers [OK] exactly when [send_command] returned
    [True], and [SERVER_ERROR] when it returned [False]; an exception that
    leaves [send_command] (a cancellation) leaves [_handle_command] as it
    is.  The entity and its device are left as they were and the requests
    are those of [send_command]. *)
Theorem handle_send_cmd_outcome
        (apps : list (string * AppData)) (validate : string -> bool)
        (params : option (gmap string string)) (command : string)
        (T : Transport) (remote : FireTVRemote) (h : list event) :
  command_param params = Some command ->
  let sent := send_command apps validate command T (_device remote) h in
  let o := _handle_command apps validate "send_cmd" params T remote h in
  result o = match result sent with
             | inr true => inr OK
             | inr false => inr SERVER_ERROR
             | inl e => inl e
             end /\
  final o = remote /\
  emitted o = emitted sent.
Proof.
  intros Hp. cbv zeta.
  destruct (send_command_effect apps validate command T (_device remote) h)
    as (Hraise & Hfin & _). cbv zeta in Hraise, Hfin.
  unfold _handle_command. run.
  change (String.eqb "send_cmd" "send_cmd") with true. cbv iota. rewrite Hp.
  run. unfold on_device.
  destruct (send_command apps validate command T (_device remote) h)
    as [[e|b] dev' ev]; cbn in Hraise, Hfin; subst dev'; run.
  - destruct (Hraise e eq_refl) as [-> _]. destruct remote; repeat split.
  - rewrite app_nil_r. destruct remote, b; repeat split.
Qed.

Lemma handle_send_cmd_outcome_witness :
  let o := _handle_command sample_apps spec_validate_package_name "send_cmd"
             (Some {[ "command" := "HOME" ]}) accepting
             {| _device := connected_device; attributes_STATE := OFF |} [] in
  result o = inr OK /\
  final o = {| _device := connected_device; attributes_STATE := OFF |} /\
  emitted o = [EvCall (key home)].
Proof.
  exact (handle_send_cmd_outcome sample_apps spec_validate_package_name
           (Some {[ "command" := "HOME" ]}) "HOME" accepting
           {| _device := connected_device; attributes_STATE := OFF |} []
           eq_refl).
Defined.

(** X9.  [on], [off] and [toggle] answer [OK] without a request and touch
    the state attribute only: [on] sets [ON], [off] sets [OFF], [toggle]
    flips it, so that two toggles restore the entity. *)
Theorem handle_power_commands
        (apps : list (string * AppData)) (validate : string -> bool)
        (params : option (gmap string string))
        (T : Transport) (remote : FireTVRemote) (h : list event) :
  let handle cmd_id r := _handle_command apps validate cmd_id params T r h in
  handle "on" remote =
    MkOutcome (inr OK) {| _device := _device remote; attributes_STATE := ON |} [] /\
  handle "off" remote =
    MkOutcome (inr OK) {| _device := _device remote; attributes_STATE := OFF |} [] /\
  handle "toggle" remote =
    MkOutcome (inr OK)
              {| _device := _device remote;
                 attributes_STATE :=
                   match attributes_STATE remote with ON => OFF | OFF => ON end |}
              [] /\
  final (handle "toggle" (final (handle "toggle" remote))) = remote.
Proof.
  cbv zeta. destruct remote as [dev [|]]; repeat split.
Qed.

(** X10.  Every other command identifier, and [send_cmd] whose parameters
    are missing, empty or without a [command], is answered
    [NOT_IMPLEMENTED]: nothing is raised, changed or sent. *)
Theorem handle_unrouted
        (apps : list (string * AppData)) (validate : string -> bool)
        (cmd_id : string) (params : option (gmap string string))
        (T : Transport) (remote : FireTVRemote) (h : list event) :
  cmd_id <> "on" -> cmd_id <> "off" -> cmd_id <> "toggle" ->
  (cmd_id = "send_cmd" -> command_param params = None) ->
  _handle_command apps validate cmd_id params T remote h =
  MkOutcome (inr NOT_IMPLEMENTED) remote [].
Proof.
  intros Hon Hoff Htoggle Hsend. unfold _handle_command. run.
  assert ((if String.eqb cmd_id "send_cmd" then command_param params else None)
          = None) as ->.
  { destruct (String.eqb_spec cmd_id "send_cmd") as [Heq|]; [auto|reflexivity]. }
  destruct (String.eqb_spec cmd_id "on"); [contradiction|].
  destruct (String.eqb_spec cmd_id "off"); [contradiction|].
  destruct (String.eqb_spec cmd_id "toggle"); [contradiction|].
  reflexivity.
Qed.

Lemma handle_unrouted_witness :
  _handle_command sample_apps spec_validate_package_name "send_cmd"
                  (Some {[ "cmd" := "HOME" ]}) accepting
                  {| _device := connected_device; attributes_STATE := ON |} [] =
  MkOutcome (inr NOT_IMPLEMENTED)
            {| _device := connected_device; attributes_STATE := ON |} [] /\
  _handle_command sample_apps spec_validate_package_name "send_cmd_sequence"
                  None accepting
                  {| _device := connected_device; attributes_STATE := ON |} [] =
  MkOutcome (inr NOT_IMPLEMENTED)
            {| _device := connected_device; attributes_STATE := ON |} [].
Proof.
  split.
  - apply handle_unrouted; try discriminate. intros _. reflexivity.
  - apply handle_unrouted; discriminate.
Defined.

(** ** [FireTVRemote]: commands, buttons and pages *)

(** X11.  The remote and the device agree on the key commands: every entry
    of [_build_simple_commands] that is no [LAUNCH_] command reaches a client
    method through [send_command], with one request; and every key of the
    device's two tables is, in upper case, such an entry. *)
Theorem advertised_keys_reach_client
        (apps : list (string * AppData)) (validate : string -> bool)
        (T : Transport) (dev : FireTVDevice) (h : list event)
        (client : FireTVClient) :
  _client dev = Some client ->
  (forall command,
      In command _build_simple_commands ->
      Py.startswith command "LAUNCH_" = false ->
      exists m,
        send_command apps validate command T dev h =
        MkOutcome (caught (T (key m) h)) dev [EvCall (key m)]) /\
  (forall k m,
      In (k, m) (nav_commands ++ media_commands) ->
      In (Py.upper k) _build_simple_commands /\
      Py.startswith (Py.upper k) "LAUNCH_" = false).
Proof.
  intros Hc. split.
  - intros command Hin Hnl. unfold _build_simple_commands in Hin.
    cbn [In] in Hin.
    repeat (destruct Hin as [<-|Hin];
            [first [discriminate Hnl
                   | eexists; apply (send_command_key apps validate _ _ T dev h client Hc);
                     reflexivity]|]).
    destruct Hin.
  - intros k m Hin. unfold nav_commands, media_commands in Hin.
    cbn [app In] in Hin.
    repeat (destruct Hin as [[= <- <-]|Hin];
            [split; [vm_compute; tauto | reflexivity]|]).
    destruct Hin.
Qed.

Lemma advertised_keys_reach_client_witness :
  exists m,
    send_command sample_apps spec_validate_package_name "EPG" accepting
                 connected_device [] =
    MkOutcome (inr true) connected_device [EvCall (key m)].
Proof.
  destruct (advertised_keys_reach_client sample_apps spec_validate_package_name
              accepting connected_device [] sample_client eq_refl) as [Hsend _].
  apply (Hsend "EPG"); [vm_compute; tauto | reflexivity].
Defined.

(** X12.  Every command bound to a button, by a short or a long press, and
    every command of an item of the navigation page is an entry of
    [_build_simple_commands]; no button is mapped twice. *)
Theorem bound_commands_are_advertised :
  (forall mapping command,
      In mapping _create_button_mapping ->
      In command (mapping_commands mapping) ->
      In command _build_simple_commands) /\
  (forall command,
      In command (page_commands _create_navigation_page) ->
      In command _build_simple_commands) /\
  List.NoDup (map button _create_button_mapping).
Proof.
  split; [|split].
  - intros mapping command Hm Hc. vm_compute in Hm.
    repeat (destruct Hm as [<-|Hm];
            [vm_compute in Hc;
             repeat (destruct Hc as [<-|Hc]; [vm_compute; tauto|]);
             destruct Hc|]).
    destruct Hm.
  - intros command Hc. vm_compute in Hc.
    repeat (destruct Hc as [<-|Hc]; [vm_compute; tauto|]).
    destruct Hc.
  - vm_compute.
    repeat (constructor; [simpl; intuition discriminate|]). constructor.
Qed.

Lemma bound_commands_are_advertised_witness :
  In "MENU" _build_simple_commands /\ In "FAST_FORWARD" _build_simple_commands.
Proof.
  destruct bound_commands_are_advertised as (Hbuttons & Hpage & _).
  split.
  - apply (Hbuttons {| button := ui.HOME; short_press := Some "HOME";
                       long_press := Some "MENU" |} "MENU").
    + vm_compute. tauto.
    + vm_compute. tauto.
  - apply (Hpage "FAST_FORWARD"). vm_compute. tauto.
Defined.

(** X13.  Whatever the registry holds, on each of the three pages every item
    lies inside the page's grid of 4 by 6 cells and no two items cover the
    same cell. *)
Theorem ui_pages_layout (apps : list (string * AppData)) (page : UiPage) :
  In page (_create_ui_pages apps) -> layout_ok page = true.
Proof.
  intros Hin. unfold _create_ui_pages in Hin. cbn [In] in Hin.
  destruct Hin as [<-|[<-|[<-|[]]]].
  - vm_compute. reflexivity.
  - unfold _create_top_apps_page, layout_ok, top_apps.
    cbn [items grid omap list_omap].
    destruct (dict_get apps "netflix"), (dict_get apps "prime_video"),
      (dict_get apps "disney_plus"), (dict_get apps "plex"),
      (dict_get apps "kodi"); reflexivity.
  - vm_compute. reflexivity.
Qed.

Lemma ui_pages_layout_witness :
  layout_ok (_create_top_apps_page sample_apps) = true /\
  layout_ok _create_custom_apps_page = true.
Proof.
  split.
  - apply (ui_pages_layout sample_apps). unfold _create_ui_pages. cbn [In]. tauto.
  - apply (ui_pages_layout sample_apps). unfold _create_ui_pages. cbn [In]. tauto.
Defined.

Lemma dict_get_In {V} (d : list (string * V)) (k : string) (v : V) :
  dict_get d k = Some v -> In (k, v) d.
Proof.
  induction d as [|[k' v'] d IH]; [discriminate|].
  cbn [dict_get]. destruct (String.eqb_spec k' k) as [->|Hne].
  - intros [= ->]. left. reflexivity.
  - intros Hd. right. exact (IH Hd).
Qed.

(** X14.  In a registry whose normalised display names are pairwise
    distinct and free of the text [LAUNCH_], every command of an item of the
    top-apps page belongs to a registry entry found under one of the five
    listed identifiers, and [send_command] answers it with one [launch_app]
    request for that entry's package. *)
Theorem top_apps_page_commands_launch
        (apps : list (string * AppData)) (validate : string -> bool)
        (T : Transport) (dev : FireTVDevice) (h : list event)
        (client : FireTVClient) (command : string) :
  List.NoDup (map (fun entry => normalized_name (snd entry)) apps) ->
  (forall app_id app_data,
      In (app_id, app_data) apps ->
      Py.contains (normalized_name app_data) "LAUNCH_" = false) ->
  _client dev = Some client ->
  In command (page_commands (_create_top_apps_page apps)) ->
  exists app_id app_data,
    In app_id (map (fun '(app_id, _, _, _) => app_id) top_apps) /\
    dict_get apps app_id = Some app_data /\
    send_command apps validate command T dev h =
    MkOutcome (caught (T (launch_app (app_package app_data)) h)) dev
              [EvCall (launch_app (app_package app_data))].
Proof.
  intros Hnd Hfree Hc Hin.
  assert (forall app_id app_data,
             dict_get apps app_id = Some app_data ->
             send_command apps validate ("LAUNCH_" +:+ cmd_name app_data) T dev h =
             MkOutcome (caught (T (launch_app (app_package app_data)) h)) dev
                       [EvCall (launch_app (app_package app_data))]) as Hsend.
  { intros app_id app_data Hget. apply dict_get_In in Hget.
    change (cmd_name app_data) with (normalized_name app_data).
    rewrite (send_command_launch apps validate _ T dev h client Hc).
    rewrite (replace_absent _ _ _ (Hfree app_id app_data Hget)).
    rewrite (find_app_registered apps app_id app_data Hnd Hget). reflexivity. }
  unfold page_commands, _create_top_apps_page, top_apps in Hin.
  cbn [items omap list_omap] in Hin.
  destruct (dict_get apps "netflix") as [a1|] eqn:H1;
    destruct (dict_get apps "prime_video") as [a2|] eqn:H2;
    destruct (dict_get apps "disney_plus") as [a3|] eqn:H3;
    destruct (dict_get apps "plex") as [a4|] eqn:H4;
    destruct (dict_get apps "kodi") as [a5|] eqn:H5;
    cbn in Hin;
    repeat (destruct Hin as [<-|Hin];
            [first [ exists "netflix", a1; split; [vm_compute; tauto|];
                     split; [exact H1|]; exact (Hsend _ _ H1)
                   | exists "prime_video", a2; split; [vm_compute; tauto|];
                     split; [exact H2|]; exact (Hsend _ _ H2)
                   | exists "disney_plus", a3; split; [vm_compute; tauto|];
                     split; [exact H3|]; exact (Hsend _ _ H3)
                   | exists "plex", a4; split; [vm_compute; tauto|];
                     split; [exact H4|]; exact (Hsend _ _ H4)
                   | exists "kodi", a5; split; [vm_compute; tauto|];
                     split; [exact H5|]; exact (Hsend _ _ H5) ]|]);
    destruct Hin.
Qed.

Lemma top_apps_page_commands_launch_witness :
  exists app_id app_data,
    In app_id (map (fun '(app_id, _, _, _) => app_id) top_apps) /\
    dict_get sample_apps app_id = Some app_data /\
    send_command sample_apps spec_validate_package_name "LAUNCH_PRIME_VIDEO"
                 accepting connected_device [] =
    MkOutcome (caught (accepting (launch_app (app_package app_data)) [])) connected_device
              [EvCall (launch_app (app_package app_data))].
Proof.
  apply (top_apps_page_commands_launch sample_apps spec_validate_package_name
           accepting connected_device [] sample_client "LAUNCH_PRIME_VIDEO").
  - exact sample_apps_names_distinct.
  - intros app_id app_data Hin. cbn [sample_apps In] in Hin.
    repeat (destruct Hin as [[= <- <-]|Hin]; [reflexivity|]). destruct Hin.
  - reflexivity.
  - vm_compute. tauto.
Defined.

(** ** [FireTVSetupFlow]: the two steps *)

Lemma verify_pin_step_returns_config (input_values : gmap string string)
        (T : Transport) (flow : FireTVSetupFlow) (h : list event)
        (stored token : string) :
  let pin := Py.strip (default "" (input_values !! "pin")) in
  Py.truthy pin = true ->
  _temp_host flow = Some stored ->
  Py.truthy stored = true ->
  T (verify_pin pin) (h ++ [EvCreate stored (_temp_port flow)]) = inr (Some token) ->
  Py.truthy token = true ->
  _verify_pin_step input_values T flow h =
  MkOutcome
    (inr {| identifier :=
              "firetv_" +:+ Py.replace stored "." "_" +:+ "_" +:+
              Py.str_of_int (_temp_port flow);
            name := Py.strip (default ("Fire TV (" +:+ stored +:+ ")")
                                      (input_values !! "name"));
            host := stored;
            port := _temp_port flow;
            token := token |})
    {| _temp_host := None; _temp_port := 8080 |}
    [EvCreate stored (_temp_port flow); EvCall (verify_pin pin); EvClose].
Proof.
  intros pin Hpin Hstored Htruthy Hanswer Htoken. subst pin.
  unfold _verify_pin_step. cbv zeta. rewrite Hpin. run.
  rewrite Hstored. cbn [truthy_opt from_option id]. rewrite Htruthy. run.
  cbn [from_option id].
  rewrite ?app_nil_r, <- ?app_assoc. cbn [app].
  rewrite Hanswer. run. cbn [truthy_opt]. rewrite Htoken. run.
  reflexivity.
Qed.

(** X15.  With a candidate host stored and a non-blank PIN, when the device
    answers the PIN with a non-empty token, [_verify_pin_step] returns the
    configuration of the stored host and port with that token, the
    identifier [firetv_<host with dots as underscores>_<port>] and the name
    taken from this step's input (by default [Fire TV (<host>)]); the flow
    is idle again and the one client it created is closed. *)
Theorem verify_pin_step_success (input_values : gmap string string)
        (T : Transport) (flow : FireTVSetupFlow) (h : list event)
        (stored token : string) :
  let pin := Py.strip (default "" (input_values !! "pin")) in
  Py.truthy pin = true ->
  _temp_host flow = Some stored ->
  Py.truthy stored = true ->
  T (verify_pin pin) (h ++ [EvCreate stored (_temp_port flow)]) = inr (Some token) ->
  Py.truthy token = true ->
  _verify_pin_step input_values T flow h =
  MkOutcome
    (inr {| identifier :=
              "firetv_" +:+ Py.replace stored "." "_" +:+ "_" +:+
              Py.str_of_int (_temp_port flow);
            name := Py.strip (default ("Fire TV (" +:+ stored +:+ ")")
                                      (input_values !! "name"));
            host := stored;
            port := _temp_port flow;
            token := token |})
    {| _temp_host := None; _temp_port := 8080 |}
    [EvCreate stored (_temp_port flow); EvCall (verify_pin pin); EvClose].
Proof.
  exact (verify_pin_step_returns_config input_values T flow h stored token).
Qed.

Lemma verify_pin_step_success_witness :
  _verify_pin_step {[ "pin" := " 0042 " ]} accepting awaiting_pin_flow [] =
  MkOutcome
    (inr {| identifier := "firetv_192_168_1_50_8080";
            name := "Fire TV (192.168.1.50)";
            host := "192.168.1.50"; port := 8080; token := "tok" |})
    idle_flow
    [EvCreate "192.168.1.50" 8080; EvCall (verify_pin "0042"); EvClose].
Proof.
  exact (verify_pin_step_success {[ "pin" := " 0042 " ]} accepting
           awaiting_pin_flow [] "192.168.1.50" "tok"
           eq_refl eq_refl eq_refl eq_refl eq_refl).
Defined.

(** X16.  With a candidate host stored and a non-blank PIN, when the device
    answers the PIN with no token or an empty one, or the request raises an
    instance of [Exception], [_verify_pin_step] raises a [ValueError] whose
    message starts with [PIN verification failed: ], the flow is idle again
    and the client is closed; no configuration is produced.  When the
    request raises an exception outside [Exception], that exception leaves
    the step: the flow keeps the candidate host and the client stays
    open. *)
Theorem verify_pin_step_failure (input_values : gmap string string)
        (T : Transport) (flow : FireTVSetupFlow) (h : list event)
        (stored : string) :
  let pin := Py.strip (default "" (input_values !! "pin")) in
  let o := _verify_pin_step input_values T flow h in
  let began := [EvCreate stored (_temp_port flow); EvCall (verify_pin pin)] in
  Py.truthy pin = true ->
  _temp_host flow = Some stored ->
  Py.truthy stored = true ->
  match T (verify_pin pin) (h ++ [EvCreate stored (_temp_port flow)]) with
  | inl err =>
      if is_Exception err then
        o = MkOutcome
              (inl (Exn ValueError ("PIN verification failed: " +:+ exn_msg err)))
              {| _temp_host := None; _temp_port := 8080 |}
              (began ++ [EvClose])
      else
        o = MkOutcome (inl err) flow began
  | inr answer =>
      truthy_opt answer = false ->
      o = MkOutcome
            (inl (Exn ValueError
                    ("PIN verification failed: " +:+ pin_verification_failed_message)))
            {| _temp_host := None; _temp_port := 8080 |}
            (began ++ [EvClose; EvClose])
  end.
Proof.
  intros pin o began Hpin Hstored Htruthy. subst pin o began.
  unfold _verify_pin_step. cbv zeta. rewrite Hpin. run.
  rewrite Hstored. cbn [truthy_opt from_option id]. rewrite Htruthy. run.
  cbn [from_option id].
  rewrite ?app_nil_r, <- ?app_assoc. cbn [app].
  destruct (T (verify_pin _) _) as [err|answer]; run.
  - destruct (is_Exception err); reflexivity.
  - intros Hfalsy. rewrite Hfalsy. run. reflexivity.
Qed.

Lemma verify_pin_step_failure_witness :
  _verify_pin_step {[ "pin" := "1234" ]} unreachable awaiting_pin_flow [] =
  MkOutcome
    (inl (Exn ValueError
            ("PIN verification failed: " +:+ pin_verification_failed_message)))
    idle_flow
    [EvCreate "192.168.1.50" 8080; EvCall (verify_pin "1234"); EvClose; EvClose].
Proof.
  exact (verify_pin_step_failure {[ "pin" := "1234" ]} unreachable
           awaiting_pin_flow [] "192.168.1.50" eq_refl eq_refl eq_refl eq_refl).
Defined.

Lemma initial_connection_step_failure_shape (input_values : gmap string string)
      (T : Transport) (flow : FireTVSetupFlow) (h : list event) :
  failure_shape flow (_initial_connection_step input_values T flow h).
Proof.
  unfold failure_shape, _initial_connection_step.
  destruct (Py.truthy (input_host input_values));
    [|intros e [= <-] _; split; [reflexivity|left; split; reflexivity]].
  destruct (input_port input_values) as [port|];
    [|intros e [= <-] _; split; [reflexivity|left; split; reflexivity]].
  run. answers T; intros e' [= <-] Hcls;
    solve [ congruence
          | split; [reflexivity|right; split; [discriminate|reflexivity]] ].
Qed.

Lemma verify_pin_step_failure_shape (input_values : gmap string string)
      (T : Transport) (flow : FireTVSetupFlow) (h : list event) :
  failure_shape flow (_verify_pin_step input_values T flow h).
Proof.
  unfold failure_shape, _verify_pin_step.
  destruct (Py.truthy (Py.strip _));
    [|intros e [= <-] _; split; [reflexivity|left; split; reflexivity]].
  run.
  destruct (truthy_opt (_temp_host flow));
    [|intros e [= <-] _; split; [reflexivity|left; split; reflexivity]].
  run. answers T; try destruct (truthy_opt _); run; intros e' [= <-] Hcls;
    solve [ congruence
          | split; [reflexivity|right; split; [discriminate|reflexivity]] ].
Qed.

Lemma query_device_failure_shape (input_values : gmap string string)
      (T : Transport) (flow : FireTVSetupFlow) (h : list event) :
  failure_shape flow (query_device input_values T flow h).
Proof.
  rewrite query_device_via_steps. unfold failure_shape.
  destruct (dict_has input_values "pin" && truthy_opt (_temp_host flow));
    cbv zeta; cbn [result final emitted]; intros e He Hcls.
  - pose proof (verify_pin_step_failure_shape input_values T flow h) as Hs.
    destruct (result (_verify_pin_step input_values T flow h)) as [e'|c] eqn:Hr;
      [|discriminate].
    injection He as <-. exact (Hs e' Hr Hcls).
  - pose proof (initial_connection_step_failure_shape input_values T flow h) as Hs.
    destruct (result (_initial_connection_step input_values T flow h))
      as [e'|f] eqn:Hr; [|discriminate].
    injection He as <-. exact (Hs e' Hr Hcls).
Qed.

(** X17.  Every instance of [Exception] that leaves [query_device] is a
    [ValueError]: what a transport call raises, of whatever class under
    [Exception], reaches the caller wrapped in one. *)
Theorem query_device_raises_only_ValueError (input_values : gmap string string)
        (T : Transport) (flow : FireTVSetupFlow) (h : list event) (e : exn) :
  result (query_device input_values T flow h) = inl e ->
  is_Exception e = true ->
  exn_cls e = ValueError.
Proof.
  intros He Hcls.
  exact (proj1 (query_device_failure_shape input_values T flow h e He Hcls)).
Qed.

Lemma query_device_raises_only_ValueError_witness :
  exn_cls (Exn ValueError
               ("Setup failed: " +:+ cannot_reach_message "192.168.1.50" 8080))
  = ValueError.
Proof.
  assert (result (query_device {[ "host" := "192.168.1.50" ]} unreachable
                               idle_flow []) =
          inl (Exn ValueError
                   ("Setup failed: " +:+ cannot_reach_message "192.168.1.50" 8080)))
    as Hraised by (vm_compute; reflexivity).
  exact (query_device_raises_only_ValueError
           {[ "host" := "192.168.1.50" ]} unreachable idle_flow [] _ Hraised
           eq_refl).
Defined.

(** X18.  When [query_device] raises an instance of [Exception] after it
    has created a client, the flow is idle afterwards: no candidate host,
    port 8080.  When it raises before anything happened (the input was
    rejected), the flow is as it was before the call. *)
Theorem query_device_failure_resets (input_values : gmap string string)
        (T : Transport) (flow : FireTVSetupFlow) (h : list event) (e : exn) :
  let o := query_device input_values T flow h in
  result o = inl e ->
  is_Exception e = true ->
  (emitted o = [] /\ final o = flow) \/
  (emitted o <> [] /\ final o = {| _temp_host := None; _temp_port := 8080 |}).
Proof.
  cbv zeta. intros He Hcls.
  exact (proj2 (query_device_failure_shape input_values T flow h e He Hcls)).
Qed.

Lemma query_device_failure_resets_witness :
  final (query_device {[ "host" := "10.0.0.9" ]} unreachable awaiting_pin_flow [])
  = idle_flow.
Proof.
  assert (result (query_device {[ "host" := "10.0.0.9" ]} unreachable
                               awaiting_pin_flow []) =
          inl (Exn ValueError
                   ("Setup failed: " +:+ cannot_reach_message "10.0.0.9" 8080)))
    as Hraised by (vm_compute; reflexivity).
  destruct (query_device_failure_resets
              {[ "host" := "10.0.0.9" ]} unreachable awaiting_pin_flow [] _ Hraised
              eq_refl)
    as [[Hnil _]|[_ Hfin]].
  - discriminate Hnil.
  - exact Hfin.
Defined.

(** A cancellation during the first request leaves [query_device] with the
    candidate address still stored. *)
Example query_device_cancelled :
  query_device {[ "host" := "10.0.0.9" ]} cancelled idle_flow [] =
  MkOutcome (inl (Exn (BaseOnly "CancelledError") ""))
            {| _temp_host := Some "10.0.0.9"; _temp_port := 8080 |}
            [EvCreate "10.0.0.9" 8080; EvCall wake_up].
Proof. vm_compute. reflexivity. Qed.

(** ** [FireTVSetupFlow]: how the steps compose *)

(** When the first step returns, everything in it succeeded. *)
Lemma initial_connection_step_returns (input_values : gmap string string)
      (T : Transport) (flow : FireTVSetupFlow) (h : list event)
      (form : RequestUserInput) :
  result (_initial_connection_step input_values T flow h) = inr form ->
  exists port,
    Py.truthy (input_host input_values) = true /\
    input_port input_values = Some port /\
    form = pin_form /\
    final (_initial_connection_step input_values T flow h) =
    {| _temp_host := Some (input_host input_values); _temp_port := port |} /\
    emitted (_initial_connection_step input_values T flow h) =
    [EvCreate (input_host input_values) port; EvCall wake_up; EvSleep 3;
     EvCall (test_connection 3 3); EvCall (request_pin "UC Remote"); EvClose].
Proof.
  unfold _initial_connection_step.
  destruct (Py.truthy (input_host input_values)); [|discriminate].
  destruct (input_port input_values) as [port|]; [|discriminate].
  run. answers T; intros Hr; try discriminate Hr;
    injection Hr as <-; exists port; repeat split.
Qed.

(** X19.  The two steps compose into a pairing.  When [query_device]
    answered a first input with a form, that form asks for the PIN and the
    flow holds the host and port of that input; a second input with a
    non-blank PIN, which the device answers with a non-empty token, then
    yields the configuration for that host and port, and the flow is idle
    again.  The name of the configuration comes from the second input. *)
Theorem two_step_pairing (first second : gmap string string)
        (T : Transport) (flow : FireTVSetupFlow) (h h2 : list event)
        (form : RequestUserInput) (port : Z) (token : string) :
  let o1 := query_device first T flow h in
  let stored := input_host first in
  let pin := Py.strip (default "" (second !! "pin")) in
  result o1 = inr (inr form) ->
  input_port first = Some port ->
  Py.truthy pin = true ->
  T (verify_pin pin) (h2 ++ [EvCreate stored port]) = inr (Some token) ->
  Py.truthy token = true ->
  form = pin_form /\
  query_device second T (final o1) h2 =
  MkOutcome
    (inr (inl {| identifier :=
                   "firetv_" +:+ Py.replace stored "." "_" +:+ "_" +:+
                   Py.str_of_int port;
                 name := Py.strip (default ("Fire TV (" +:+ stored +:+ ")")
                                           (second !! "name"));
                 host := stored; port := port; token := token |}))
    {| _temp_host := None; _temp_port := 8080 |}
    [EvCreate stored port; EvCall (verify_pin pin); EvClose].
Proof.
  intros o1 stored pin Hform Hport Hpin Hanswer Htoken. subst o1 stored pin.
  pose proof (f_equal result (query_device_via_steps first T flow h)) as Hr.
  pose proof (f_equal final (query_device_via_steps first T flow h)) as Hfin.
  destruct (dict_has first "pin" && truthy_opt (_temp_host flow));
    cbv zeta in Hr, Hfin; cbn [result final] in Hr, Hfin.
  { rewrite Hr in Hform.
    destruct (result (_verify_pin_step first T flow h)); discriminate. }
  rewrite Hr in Hform.
  destruct (result (_initial_connection_step first T flow h)) as [e|f] eqn:Hstep;
    [discriminate|].
  injection Hform as ->.
  destruct (initial_connection_step_returns first T flow h form Hstep)
    as (port' & Hhost & Hport' & -> & Hfinal & _).
  rewrite Hport in Hport'. injection Hport' as <-.
  split; [reflexivity|].
  rewrite Hfin, Hfinal.
  rewrite (query_device_via_steps second T
             {| _temp_host := Some (input_host first); _temp_port := port |} h2).
  cbn [_temp_host truthy_opt]. rewrite Hhost.
  assert (dict_has second "pin" = true) as Hhas.
  { unfold dict_has. destruct (second !! "pin"); [reflexivity|discriminate Hpin]. }
  rewrite Hhas. cbn [andb]. cbv zeta.
  rewrite (verify_pin_step_returns_config second T
             {| _temp_host := Some (input_host first); _temp_port := port |} h2
             (input_host first) token Hpin eq_refl Hhost Hanswer Htoken).
  reflexivity.
Qed.

Lemma two_step_pairing_witness :
  let first : gmap string string :=
    <[ "name" := "Living Room" ]> {[ "host" := "192.168.1.50" ]} in
  query_device {[ "pin" := "1234" ]} accepting
               (final (query_device first accepting idle_flow [])) [] =
  MkOutcome
    (inr (inl {| identifier := "firetv_192_168_1_50_8080";
                 name := "Fire TV (192.168.1.50)";
                 host := "192.168.1.50"; port := 8080; token := "tok" |}))
    idle_flow
    [EvCreate "192.168.1.50" 8080; EvCall (verify_pin "1234"); EvClose].
Proof.
  exact (proj2 (two_step_pairing
                  (<[ "name" := "Living Room" ]> {[ "host" := "192.168.1.50" ]})
                  {[ "pin" := "1234" ]} accepting idle_flow [] [] pin_form 8080 "tok"
                  eq_refl eq_refl eq_refl eq_refl eq_refl)).
Defined.

(** X20.  A new first step starts clean: what [_initial_connection_step]
    returns or raises and what it sends do not depend on the host and port
    that the flow held before, and once the input is accepted the flow it
    leaves does not depend on them either. *)
Theorem initial_step_ignores_context (input_values : gmap string string)
        (T : Transport) (flow1 flow2 : FireTVSetupFlow) (h : list event) :
  let o1 := _initial_connection_step input_values T flow1 h in
  let o2 := _initial_connection_step input_values T flow2 h in
  result o1 = result o2 /\
  emitted o1 = emitted o2 /\
  (emitted o1 <> [] -> final o1 = final o2).
Proof.
  cbv zeta. unfold _initial_connection_step.
  destruct (Py.truthy (input_host input_values));
    [|split; [reflexivity|split; [reflexivity|intros Hne; contradiction Hne; reflexivity]]].
  destruct (input_port input_values) as [port|];
    [|split; [reflexivity|split; [reflexivity|intros Hne; contradiction Hne; reflexivity]]].
  run. repeat split.
Qed.

Lemma initial_step_ignores_context_witness :
  final (_initial_connection_step {[ "host" := "10.0.0.7" ]} unreachable
           awaiting_pin_flow []) =
  final (_initial_connection_step {[ "host" := "10.0.0.7" ]} unreachable
           idle_flow []).
Proof.
  apply (initial_step_ignores_context {[ "host" := "10.0.0.7" ]} unreachable
           awaiting_pin_flow idle_flow []).
  vm_compute. discriminate.
Defined.

Lemma query_device_reads (iv iv' : gmap string string)
      (T : Transport) (flow : FireTVSetupFlow) (h : list event) :
  dict_has iv "pin" = false -> dict_has iv' "pin" = false ->
  input_host iv = input_host iv' -> input_port iv = input_port iv' ->
  query_device iv T flow h = query_device iv' T flow h.
Proof.
  intros Hp Hp' Hh Hport. unfold query_device, _initial_connection_step. run.
  rewrite Hp, Hp', Hh, Hport. reflexivity.
Qed.

(** X21.  The manual entry form agrees with the first step.  Submitted as
    it stands, with its empty address, it is rejected with [IP address is
    required] and nothing is sent; with an address filled in, its default
    port field gives the same run as an input without a port, and its name
    field has no effect on the step. *)
Theorem manual_entry_form_defaults (T : Transport) (flow : FireTVSetupFlow)
        (h : list event) :
  query_device (form_defaults get_manual_entry_form) T flow h =
    MkOutcome (inl (Exn ValueError "IP address is required")) flow [] /\
  forall address_text : string,
    query_device (<[ "host" := address_text ]> (form_defaults get_manual_entry_form))
                 T flow h =
    query_device {[ "host" := address_text ]} T flow h.
Proof.
  split.
  - unfold query_device. run.
    change (dict_has (form_defaults get_manual_entry_form) "pin") with false.
    cbn [andb]. run.
    rewrite (initial_connection_step_rejects _ T flow (h ++ []));
      [reflexivity | left; reflexivity].
  - intros address_text. apply query_device_reads.
    + unfold dict_has. rewrite lookup_insert_ne by discriminate. reflexivity.
    + unfold dict_has. rewrite lookup_singleton_ne by discriminate. reflexivity.
    + unfold input_host. rewrite lookup_insert_eq, lookup_singleton_eq. reflexivity.
    + unfold input_port. rewrite lookup_insert_ne by discriminate.
      rewrite lookup_singleton_ne by discriminate. reflexivity.
Qed.

(** ** The simulator *)

Module SimulatorFacts.
Import Simulator.

Lemma drawn_pin_format (draw : Z) :
  0 <= draw < 10000 ->
  is_pin (format_04d draw) = true /\
  Py.int_of_str (format_04d draw) = Some draw.
Proof.
  intros Hrange.
  assert (forallb (fun k =>
                     let n := Z.of_nat k in
                     is_pin (format_04d n) &&
                     match Py.int_of_str (format_04d n) with
                     | Some m => m =? n
                     | None => false
                     end) (List.seq 0 (Z.to_nat 10000)) = true) as Hall
      by (vm_compute; reflexivity).
  rewrite forallb_forall in Hall.
  specialize (Hall (Z.to_nat draw)).
  rewrite Z2Nat.id in Hall by lia. cbv zeta in Hall.
  assert (In (Z.to_nat draw) (List.seq 0 (Z.to_nat 10000))) as Hin
      by (apply in_seq; lia).
  apply Hall in Hin. apply andb_true_iff in Hin as [Hpin Hread].
  split; [exact Hpin|].
  destruct (Py.int_of_str (format_04d draw)) as [m|]; [|discriminate].
  apply Z.eqb_eq in Hread. congruence.
Qed.

(** X22.  Every PIN the simulator can draw is shown as exactly four decimal
    digits, and reads back as the number drawn. *)
Theorem pin_format (draw : Z) :
  0 <= draw < 10000 ->
  is_pin (format_04d draw) = true /\
  Py.int_of_str (format_04d draw) = Some draw.
Proof. exact (drawn_pin_format draw). Qed.

Lemma pin_format_witness :
  0 <= 42 < 10000 /\
  is_pin (format_04d 42) = true /\ Py.int_of_str (format_04d 42) = Some 42.
Proof. split; [lia | apply pin_format; lia]. Defined.

(** X23.  The handshake: after a PIN display request with a JSON body, a
    verify request that carries the displayed PIN as a string is answered
    200 with the new token as [description], and from then on the navigation,
    media and app-launch handlers answer 200 to every request that carries
    that token (when it is not empty), without changing the state. *)
Theorem pairing_handshake (draw : Z) (fresh : string) (st : STATE)
        (shown verified : Request) (data vdata : gmap string jvalue) :
  body shown = Some data ->
  body verified = Some vdata ->
  vdata !! "pin" = Some (JString (format_04d draw)) ->
  let st1 := snd (handle_pin_display draw shown st) in
  let st2 := snd (handle_pin_verify fresh verified st1) in
  fst (handle_pin_display draw shown st) = json_response [("status", "success")] 200 /\
  fst (handle_pin_verify fresh verified st1) =
    json_response [("description", fresh)] 200 /\
  forall request,
    x_client_token request = Some fresh ->
    Py.truthy fresh = true ->
    handle_navigation_command request st2 = (web_Response None 200, st2) /\
    handle_media_command request st2 = (web_Response None 200, st2) /\
    handle_app_launch request st2 = (web_Response None 200, st2).
Proof.
  intros Hshown Hverified Hpin. cbv zeta.
  unfold handle_pin_display. rewrite Hshown. cbn [fst snd].
  unfold handle_pin_verify. rewrite Hverified, Hpin.
  cbn [pin_request_active current_pin negb pin_differs].
  rewrite String.eqb_refl. cbn [negb fst snd].
  split; [reflexivity|]. split; [reflexivity|].
  intros request Hheader Htruthy.
  unfold handle_navigation_command, handle_media_command, handle_app_launch,
    unauthorized.
  rewrite Hheader, Htruthy. cbn [authenticated_tokens negb orb].
  rewrite lookup_insert_eq. repeat split.
Qed.

Lemma pairing_handshake_witness :
  let st2 :=
    snd (handle_pin_verify "c0ffee" (with_json {[ "pin" := JString "0042" ]})
           (snd (handle_pin_display 42
                   (with_json {[ "friendlyName" := JString "UC Remote" ]})
                   initial_STATE))) in
  handle_navigation_command (with_token "c0ffee") st2 = (web_Response None 200, st2).
Proof.
  cbv zeta.
  assert (({[ "pin" := JString "0042" ]} : gmap string jvalue) !! "pin" =
          Some (JString (format_04d 42))) as Hpin by (vm_compute; reflexivity).
  destruct (pairing_handshake 42 "c0ffee" initial_STATE
              (with_json {[ "friendlyName" := JString "UC Remote" ]})
              (with_json {[ "pin" := JString "0042" ]})
              {[ "friendlyName" := JString "UC Remote" ]}
              {[ "pin" := JString "0042" ]} eq_refl eq_refl Hpin)
    as (_ & _ & Hcommands).
  exact (proj1 (Hcommands (with_token "c0ffee") eq_refl eq_refl)).
Defined.

(** X24.  Tokens are issued in one way only and never withdrawn.  Serving a
    request leaves the set of tokens as it was, unless the request is a PIN
    verification with a JSON body, made while a PIN request is active, whose
    PIN equals the current one; then the one new token is added and the PIN
    request is no longer active. *)
Theorem tokens_only_from_verified_pin (r : route) (request : Request) (st : STATE) :
  let st' := snd (serve r request st) in
  authenticated_tokens st' = authenticated_tokens st \/
  exists fresh data,
    r = POST_pin_verify fresh /\
    body request = Some data /\
    pin_request_active st = true /\
    pin_differs (data !! "pin") (current_pin st) = false /\
    authenticated_tokens st' = <[ fresh := true ]> (authenticated_tokens st) /\
    pin_request_active st' = false.
Proof.
  cbv zeta. destruct r as [| |draw|fresh| | |]; cbn [serve].
  - left. reflexivity.
  - left. reflexivity.
  - left. unfold handle_pin_display. destruct (body request); reflexivity.
  - unfold handle_pin_verify.
    destruct (body request) as [data|] eqn:Hbody; [|left; reflexivity].
    destruct (pin_request_active st) eqn:Hactive; cbn [negb]; [|left; reflexivity].
    destruct (pin_differs (data !! "pin") (current_pin st)) eqn:Hpin;
      [left; reflexivity|].
    right. exists fresh, data. repeat split; assumption.
  - left. unfold handle_navigation_command. destruct (unauthorized _ _); reflexivity.
  - left. unfold handle_media_command. destruct (unauthorized _ _); reflexivity.
  - left. unfold handle_app_launch. destruct (unauthorized _ _); reflexivity.
Qed.

(** X25.  A displayed PIN verifies once.  After a verification answered
    200, every further verification is refused (its status is not 200) and
    issues no token, whatever PIN it carries, until a PIN is displayed
    again. *)
Theorem pin_is_single_use (fresh fresh' : string) (request request' : Request)
        (st : STATE) :
  status_of (fst (handle_pin_verify fresh request st)) = 200 ->
  let st' := snd (handle_pin_verify fresh request st) in
  status_of (fst (handle_pin_verify fresh' request' st')) <> 200 /\
  snd (handle_pin_verify fresh' request' st') = st'.
Proof.
  unfold handle_pin_verify.
  destruct (body request) as [data|]; [|discriminate].
  destruct (pin_request_active st); cbn [negb]; [|discriminate].
  destruct (pin_differs (data !! "pin") (current_pin st)); [discriminate|].
  intros _. cbv zeta. cbn [snd pin_request_active negb].
  destruct (body request'); cbn [fst snd status_of]; split;
    try discriminate; reflexivity.
Qed.

Lemma pin_is_single_use_witness :
  let st1 := snd (handle_pin_display 42 (with_json ∅) initial_STATE) in
  let st2 := snd (handle_pin_verify "c0ffee"
                    (with_json {[ "pin" := JString "0042" ]}) st1) in
  status_of (fst (handle_pin_verify "beef"
                    (with_json {[ "pin" := JString "0042" ]}) st2)) <> 200.
Proof.
  cbv zeta.
  assert (status_of
            (fst (handle_pin_verify "c0ffee"
                    (with_json {[ "pin" := JString "0042" ]})
                    (snd (handle_pin_display 42 (with_json ∅) initial_STATE))))
          = 200) as Hverified by (vm_compute; reflexivity).
  exact (proj1 (pin_is_single_use "c0ffee" "beef"
                  (with_json {[ "pin" := JString "0042" ]})
                  (with_json {[ "pin" := JString "0042" ]})
                  (snd (handle_pin_display 42 (with_json ∅) initial_STATE))
                  Hverified)).
Defined.

(** While a PIN request is active the current PIN is a string of four
    digits. *)
Lemma active_pin_is_shown (reqs : list (route * Request)) (st : STATE) :
  (forall r request, In (r, request) reqs -> draw_in_range r) ->
  (pin_request_active st = true ->
   exists pin, current_pin st = Some pin /\ is_pin pin = true) ->
  pin_request_active (serve_all reqs st) = true ->
  exists pin, current_pin (serve_all reqs st) = Some pin /\ is_pin pin = true.
Proof.
  revert st. induction reqs as [|[r request] reqs IH]; intros st Hdraws Hst.
  - exact Hst.
  - cbn [serve_all]. apply IH.
    + intros r' request' Hin. apply (Hdraws r' request'). right. exact Hin.
    + pose proof (Hdraws r request (or_introl eq_refl)) as Hdraw.
      destruct r as [| |draw|fresh| | |]; cbn [serve draw_in_range] in *.
      * exact Hst.
      * exact Hst.
      * unfold handle_pin_display. destruct (body request); [|exact Hst].
        cbn [snd pin_request_active current_pin]. intros _.
        exists (format_04d draw). split; [reflexivity|].
        exact (proj1 (drawn_pin_format draw Hdraw)).
      * unfold handle_pin_verify. destruct (body request); [|exact Hst].
        destruct (pin_request_active st) eqn:Hactive; cbn [negb];
          [|cbn [snd]; rewrite Hactive; discriminate].
        destruct (pin_differs _ _); [cbn [snd]; rewrite Hactive; exact Hst|].
        cbn [snd pin_request_active]. discriminate.
      * unfold handle_navigation_command. destruct (unauthorized _ _); exact Hst.
      * unfold handle_media_command. destruct (unauthorized _ _); exact Hst.
      * unfold handle_app_launch. destruct (unauthorized _ _); exact Hst.
Qed.

(** X26.  In every state that the simulator reaches from its initial state
    (with PINs drawn below 10000), a verification is answered 200 only if
    its body carries the PIN as a JSON string of four digits: a missing
    PIN, [null], a number or any other value never yields a token. *)
Theorem verification_needs_four_digit_string
        (reqs : list (route * Request)) (fresh : string) (request : Request) :
  (forall r request', In (r, request') reqs -> draw_in_range r) ->
  status_of (fst (handle_pin_verify fresh request
                    (serve_all reqs initial_STATE))) = 200 ->
  exists data pin,
    body request = Some data /\
    data !! "pin" = Some (JString pin) /\
    is_pin pin = true.
Proof.
  intros Hdraws.
  pose proof (active_pin_is_shown reqs initial_STATE Hdraws) as Hinv.
  unfold handle_pin_verify.
  destruct (body request) as [data|]; [|discriminate].
  destruct (pin_request_active (serve_all reqs initial_STATE)) eqn:Hactive;
    cbn [negb]; [|discriminate].
  destruct Hinv as (pin & Hcur & Hpin); [discriminate|reflexivity|].
  rewrite Hcur.
  destruct (data !! "pin") as [[| s |]|] eqn:Hd; cbn [pin_differs];
    try discriminate.
  destruct (String.eqb_spec s pin) as [->|]; cbn [negb]; [|discriminate].
  intros _. exists data, pin. repeat split; assumption.
Qed.

Lemma verification_needs_four_digit_string_witness :
  exists data pin,
    body (with_json {[ "pin" := JString "0007" ]}) = Some data /\
    data !! "pin" = Some (JString pin) /\
    is_pin pin = true.
Proof.
  apply (verification_needs_four_digit_string
           [(POST_wake, with_json ∅); (POST_pin_display 7, with_json ∅)]
           "c0ffee" (with_json {[ "pin" := JString "0007" ]})).
  - intros r request' Hin. cbn [In] in Hin.
    destruct Hin as [[= <- <-]|[[= <- <-]|[]]]; cbn [draw_in_range]; [exact I|lia].
  - vm_compute. reflexivity.
Defined.

(** Without a displayed PIN nothing is issued. *)
Lemma no_display_no_token (reqs : list (route * Request)) (st : STATE) :
  (forall draw request, ~ In (POST_pin_display draw, request) reqs) ->
  pin_request_active st = false ->
  pin_request_active (serve_all reqs st) = false /\
  authenticated_tokens (serve_all reqs st) = authenticated_tokens st.
Proof.
  revert st. induction reqs as [|[r request] reqs IH]; intros st Hno Hst.
  - split; [exact Hst|reflexivity].
  - cbn [serve_all].
    assert (serve r request st = (fst (serve r request st), st)) as Hsame.
    { destruct r as [| |draw|fresh| | |]; cbn [serve].
      - reflexivity.
      - reflexivity.
      - exfalso. exact (Hno draw request (or_introl eq_refl)).
      - unfold handle_pin_verify. destruct (body request); [|reflexivity].
        rewrite Hst. reflexivity.
      - unfold handle_navigation_command. destruct (unauthorized _ _); reflexivity.
      - unfold handle_media_command. destruct (unauthorized _ _); reflexivity.
      - unfold handle_app_launch. destruct (unauthorized _ _); reflexivity. }
    rewrite Hsame. cbn [snd]. apply IH; [|exact Hst].
    intros draw request' Hin. exact (Hno draw request' (or_intror Hin)).
Qed.

(** X27.  No command without pairing: as long as no PIN display has been
    requested since the start of the simulator, no token exists, and the
    navigation, media and app-launch handlers answer 401 to every request,
    whatever token it carries. *)
Theorem commands_need_pairing (reqs : list (route * Request)) (request : Request) :
  (forall draw request', ~ In (POST_pin_display draw, request') reqs) ->
  let st := serve_all reqs initial_STATE in
  authenticated_tokens st = ∅ /\
  handle_navigation_command request st = (web_Response None 401, st) /\
  handle_media_command request st = (web_Response None 401, st) /\
  handle_app_launch request st = (web_Response None 401, st).
Proof.
  intros Hno. cbv zeta.
  destruct (no_display_no_token reqs initial_STATE Hno eq_refl) as [_ Htokens].
  cbn [authenticated_tokens initial_STATE] in Htokens.
  split; [exact Htokens|].
  assert (unauthorized request (serve_all reqs initial_STATE) = true) as Hun.
  { unfold unauthorized. destruct (x_client_token request) as [token|]; [|reflexivity].
    rewrite Htokens, lookup_empty. apply orb_true_r. }
  unfold handle_navigation_command, handle_media_command, handle_app_launch.
  rewrite Hun. repeat split.
Qed.

Lemma commands_need_pairing_witness :
  handle_navigation_command (with_token "guess")
    (serve_all [(POST_wake, with_json ∅);
                (POST_pin_verify "c0ffee", with_json {[ "pin" := JNull ]})]
               initial_STATE) =
  (web_Response None 401,
   serve_all [(POST_wake, with_json ∅);
              (POST_pin_verify "c0ffee", with_json {[ "pin" := JNull ]})]
             initial_STATE).
Proof.
  apply (commands_need_pairing
           [(POST_wake, with_json ∅);
            (POST_pin_verify "c0ffee", with_json {[ "pin" := JNull ]})]
           (with_token "guess")).
  intros draw request' Hin. cbn [In] in Hin.
  destruct Hin as [H|[H|[]]]; discriminate H.
Defined.

End SimulatorFacts.
